(** * memU MCP server: the tool-call gateway, embedded and verified

    A shallow embedding of
      - [src/memu_mcp_server/memu_client.py]  (class [MemuClientWrapper]),
      - [src/memu_mcp_server/tools.py]        (class [MemoryTools]),
      - [src/memu_mcp_server/server.py]       (handler [call_tool]),
    followed by the properties of the gateway: argument validation, the
    connection retry loop, the session guard and the result envelope.

    Python values are a tagged union, dictionaries are finite maps keyed by
    strings, exceptions are values of an error monad, and everything the
    code does to the outside (clock reads, sleeps, calls of the memU SDK,
    entries into adapter methods, structured log records) is an event of a
    trace, so that "the backend is not invoked" is a statement about the
    trace of a call.  The free-text lines of the logger ([info], [warning],
    [error]) take no part in the control flow and are left out; its two
    structured records, [log_tool_call] and [log_memu_api_call], are
    events.

    Two kinds of logger object occur in the code.  [tools.py] and
    [memu_client.py] declare a [MemuLogger], which has the two structured
    methods; [server.py] passes on what [setup_logger] returns, a structlog
    [BoundLogger], which has [info], [warning] and [error] but neither of
    the two.  The embedding is parametric in the kind of the logger; the
    properties of the handlers and of the adapter are stated for the
    [MemuLogger] their signatures declare, the properties of the server
    for every logger or for the [BoundLogger] it creates. *)

From Stdlib Require Import ZArith QArith Qround Ascii String.
From stdpp Require Import gmap strings list fin_maps pretty.

Set Warnings "-register-all".
Local Open Scope string_scope.
Local Open Scope Z_scope.

(** ** Floating point numbers

    [time.time()], [round(x, 3)] and [base_delay * 2 ** attempt] work on
    binary64 floats.  No property below depends on what these operations
    compute, so the embedding is parametric in them. *)

Class FloatOps := {
  float : Type;
  float_of_int : Z -> float;          (* the int -> float coercion of mixed arithmetic *)
  float_lit : Z -> nat -> float;      (* the decimal literal [m * 10^-d] *)
  fmul : float -> float -> float;
  fsub : float -> float -> float;
  fround : float -> Z -> float;       (* [round(x, ndigits)] *)
  fis_zero : float -> bool            (* [x == 0.0] *)
}.

(** Exact rational arithmetic, used to run the definitions on concrete
    inputs. *)
Definition Q_round (x : Q) (ndigits : Z) : Q :=
  let scale := inject_Z (10 ^ ndigits) in
  Qdiv (inject_Z (Qfloor (Qplus (Qmult x scale) (1 # 2)))) scale.

Definition exact_floats : FloatOps := {|
  float := Q;
  float_of_int := inject_Z;
  float_lit := fun m d => Qdiv (inject_Z m) (inject_Z (10 ^ Z.of_nat d));
  fmul := Qmult;
  fsub := Qminus;
  fround := Q_round;
  fis_zero := fun x => Qeq_bool x 0
|}.

(** ** Python values *)

Module Py.
Section Values.
Context {FL : FloatOps}.

(** The values a decoded JSON document (and a result mapping) is made of. *)
Inductive PyVal : Type :=
  | PNone
  | PBool (b : bool)
  | PInt (z : Z)
  | PFloat (f : float)
  | PStr (s : string)
  | PList (l : list PyVal)
  | PDict (d : gmap string PyVal).

(** Truth value testing, as by [if x] / [not x]. *)
Definition truthy (v : PyVal) : bool :=
  match v with
  | PNone => false
  | PBool b => b
  | PInt z => negb (z =? 0)
  | PFloat f => negb (fis_zero f)
  | PStr s => negb (String.eqb s "")
  | PList l => match l with [] => false | _ => true end
  | PDict d => negb (bool_decide (d = ∅))
  end.

(** [d.get(k)] and [d.get(k, dflt)]. *)
Definition dict_get (d : gmap string PyVal) (k : string) : PyVal :=
  default PNone (d !! k).

Definition dict_get_or (d : gmap string PyVal) (k : string) (dflt : PyVal) : PyVal :=
  default dflt (d !! k).

(** [v == s] for a string literal [s]: only a [str] compares equal. *)
Definition eq_str (v : PyVal) (s : string) : bool :=
  match v with PStr s' => String.eqb s' s | _ => false end.

(** [v in [s1, ..]] for a list of string literals. *)
Definition in_strs (v : PyVal) (ss : list string) : bool :=
  existsb (eq_str v) ss.

(** [isinstance(v, int)]: [bool] is a subclass of [int]. *)
Definition isinstance_int (v : PyVal) : bool :=
  match v with PInt _ | PBool _ => true | _ => false end.

Definition isinstance_bool (v : PyVal) : bool :=
  match v with PBool _ => true | _ => false end.

Definition isinstance_dict (v : PyVal) : bool :=
  match v with PDict _ => true | _ => false end.

(** The integer an [int] instance stands for in a comparison. *)
Definition int_value (v : PyVal) : Z :=
  match v with
  | PInt z => z
  | PBool true => 1
  | _ => 0
  end.

(** [type(v).__name__]. *)
Definition type_name (v : PyVal) : string :=
  match v with
  | PNone => "NoneType"
  | PBool _ => "bool"
  | PInt _ => "int"
  | PFloat _ => "float"
  | PStr _ => "str"
  | PList _ => "list"
  | PDict _ => "dict"
  end.

(** [len(v)]: [None] stands for the [TypeError] of an unsized value.  A
    character of a [str] is one [ascii] (code points below 256). *)
Definition len (v : PyVal) : option Z :=
  match v with
  | PStr s => Some (Z.of_nat (String.length s))
  | PList l => Some (Z.of_nat (length l))
  | PDict d => Some (Z.of_nat (size d))
  | _ => None
  end.

(** [str.isspace] on one character: the whitespace of the code points
    below 256. *)
Definition isspace (c : ascii) : bool :=
  let n := nat_of_ascii c in
  ((9 <=? n) && (n <=? 13))%nat || ((28 <=? n) && (n <=? 32))%nat
  || (n =? 133)%nat || (n =? 160)%nat.

(** [s.split()]: the maximal runs of non-whitespace characters.  [cur] is
    the run being read, most recent character first. *)
Fixpoint split_from (cur : string) (s : string) : list string :=
  match s with
  | EmptyString =>
      match cur with EmptyString => [] | _ => [String.rev cur] end
  | String c s' =>
      if isspace c then
        match cur with
        | EmptyString => split_from EmptyString s'
        | _ => String.rev cur :: split_from EmptyString s'
        end
      else split_from (String c cur) s'
  end.

Definition split (s : string) : list string := split_from EmptyString s.

(** The word count in the words of the specification: the number of
    whitespace-delimited words, that is, of the characters that are not
    whitespace and stand at the start of the text or after whitespace. *)
Fixpoint count_words (after_space : bool) (s : string) : Z :=
  match s with
  | EmptyString => 0
  | String c s' =>
      if isspace c then count_words true s'
      else (if after_space then 1 else 0) + count_words false s'
  end.

Definition word_count (s : string) : Z := count_words true s.

End Values.
End Py.
Export Py.

(** ** Exceptions, events and the state of the process *)

Module Eff.
Section Effects.
Context {FL : FloatOps}.

Inductive ExcClass :=
  | ValueError | TypeError | AttributeError | RuntimeError
  | ConnectionError | UnboundLocalError | OverflowError
  | SdkError.                       (* any other [Exception] raised by the memU SDK *)

(** An exception object: its class and [str(e)]. *)
Record Exc := Exception { exc_class : ExcClass; exc_str : string }.

Inductive Result (A : Type) :=
  | Ok (a : A)
  | Raised (e : Exc).
Global Arguments Ok {A} a.
Global Arguments Raised {A} e.

(** [getattr] on an object of class [cls] that has no attribute [attr]. *)
Definition no_attribute (cls attr : string) : Exc :=
  Exception AttributeError
    ("'" ++ cls ++ "' object has no attribute '" ++ attr ++ "'").

(** The logger object of the process: an instance of [MemuLogger]
    ([logger.py] l.90-131), or the structlog [BoundLogger] that
    [setup_logger] returns ([logger.py] l.13-87). *)
Inductive Logger := MemuLogger | BoundLogger.
Existing Class Logger.

(** The SDK object held in [self._client], identified by a number. *)
Definition MemuClient := nat.

(** One entry into a method of the backend adapter, with its arguments. *)
Inductive AdapterCall :=
  | call_memorize_conversation
      (conversation user_id user_name agent_id agent_name : PyVal)
  | call_retrieve_memory (query user_id limit : PyVal)
  | call_search_memory (search_query user_id filters limit : PyVal)
  | call_update_memory (memory_id new_content user_id : PyVal)
  | call_delete_memory (memory_id user_id : PyVal)
  | call_get_memory_stats (user_id include_details : PyVal).

Inductive Event :=
  | EvAdapter (c : AdapterCall)
  | EvSdkNew (base_url api_key : string)       (* [MemuClient(base_url=.., api_key=..)] *)
  | EvSdkMemorize (client : MemuClient)        (* [self._client.memorize_conversation(..)] *)
      (conversation user_id user_name agent_id agent_name : PyVal)
  | EvClock (t : float)                        (* [time.time()] *)
  | EvSleep (seconds : float)                  (* [asyncio.sleep(seconds)] *)
  | EvToolLog (tool_name : string)             (* [logger.log_tool_call] *)
      (arguments : gmap string PyVal) (success : bool)
  | EvApiLog (method : string)                 (* [logger.log_memu_api_call] *)
      (response_time : float) (success : bool).

(** The fields of [Config] the gateway reads. *)
Record Config := { memu_base_url : string; memu_api_key : string }.

(** The fields of a [MemuClientWrapper]; [_logger] records whether the
    logger of the process has been set.  An SDK client object and a logger
    are truthy, so [if not self._client] and [if self._logger] ask whether
    the field is [None]. *)
Record Wrapper := {
  config : Config;
  _client : option MemuClient;
  _logger : bool;
  _retry_count : Z;
  _max_retries : Z;
  _base_delay : float
}.

(** What the outside answers: the successive readings of the clock, the
    outcomes of the successive constructions of an SDK client, and the
    outcomes of the successive SDK calls (the [id] attribute of the
    returned object, if it has one, or the exception raised). *)
Record Outside := {
  clock : nat -> float;
  sdk_new : nat -> Result MemuClient;
  sdk_memorize : nat -> Result (option PyVal)
}.

Record World := {
  self : Wrapper;
  outside : Outside;
  clock_reads : nat;
  sdk_news : nat;
  sdk_memorizes : nat
}.

Definition set_self (s : Wrapper) (w : World) : World :=
  {| self := s; outside := outside w; clock_reads := clock_reads w;
     sdk_news := sdk_news w; sdk_memorizes := sdk_memorizes w |}.

Definition with_client (c : option MemuClient) (s : Wrapper) : Wrapper :=
  {| config := config s; _client := c; _logger := _logger s;
     _retry_count := _retry_count s; _max_retries := _max_retries s;
     _base_delay := _base_delay s |}.

Definition with_logger (b : bool) (s : Wrapper) : Wrapper :=
  {| config := config s; _client := _client s; _logger := b;
     _retry_count := _retry_count s; _max_retries := _max_retries s;
     _base_delay := _base_delay s |}.

Definition with_retry_count (n : Z) (s : Wrapper) : Wrapper :=
  {| config := config s; _client := _client s; _logger := _logger s;
     _retry_count := n; _max_retries := _max_retries s;
     _base_delay := _base_delay s |}.

(** A computation: from a world to an outcome, the next world and the
    events of the run, oldest first. *)
Definition M (A : Type) : Type := World -> Result A * World * list Event.

Definition ret {A} (a : A) : M A := fun w => (Ok a, w, []).

Definition bind {A B} (m : M A) (k : A -> M B) : M B :=
  fun w =>
    match m w with
    | (Ok a, w1, t1) =>
        match k a w1 with (r, w2, t2) => (r, w2, (t1 ++ t2)%list) end
    | (Raised e, w1, t1) => (Raised e, w1, t1)
    end.

Definition raise {A} (e : Exc) : M A := fun w => (Raised e, w, []).

(** [try: body  except Exception as e: handler e]. *)
Definition try_except {A} (body : M A) (handler : Exc -> M A) : M A :=
  fun w =>
    match body w with
    | (Ok a, w1, t1) => (Ok a, w1, t1)
    | (Raised e, w1, t1) =>
        match handler e w1 with (r, w2, t2) => (r, w2, (t1 ++ t2)%list) end
    end.

Definition emit (ev : Event) : M unit := fun w => (Ok tt, w, [ev]).

Definition get_self : M Wrapper := fun w => (Ok (self w), w, []).

Definition update_self (f : Wrapper -> Wrapper) : M unit :=
  fun w => (Ok tt, set_self (f (self w)) w, []).

(** The world after one more reading of the clock, one more
    construction of an SDK client, one more SDK call. *)
Definition tick (w : World) : World :=
  {| self := self w; outside := outside w;
     clock_reads := S (clock_reads w);
     sdk_news := sdk_news w; sdk_memorizes := sdk_memorizes w |}.

Definition constructed (w : World) : World :=
  {| self := self w; outside := outside w;
     clock_reads := clock_reads w;
     sdk_news := S (sdk_news w); sdk_memorizes := sdk_memorizes w |}.

Definition called (w : World) : World :=
  {| self := self w; outside := outside w;
     clock_reads := clock_reads w;
     sdk_news := sdk_news w; sdk_memorizes := S (sdk_memorizes w) |}.

(** [time.time()]. *)
Definition time_time : M float :=
  fun w => let t := clock (outside w) (clock_reads w) in (Ok t, tick w, [EvClock t]).

(** [await asyncio.sleep(seconds)]. *)
Definition asyncio_sleep (seconds : float) : M unit := emit (EvSleep seconds).

(** The conversion of an [int] to a [float] rounds to the nearest float
    and raises [OverflowError] when that is 2**1024 or beyond, that is,
    from 2**1024 - 2**970 on. *)
Definition float_overflows (n : Z) : bool := 2 ^ 1024 - 2 ^ 970 <=? Z.abs n.

Definition int_too_large : Exc :=
  Exception OverflowError "int too large to convert to float".

(** [x * n] for a float [x] and an int [n]: [n] is converted first. *)
Definition fmul_int (x : float) (n : Z) : M float :=
  if float_overflows n then raise int_too_large
  else ret (fmul x (float_of_int n)).

(** [MemuClient(base_url=.., api_key=..)]. *)
Definition MemuClient_new (base_url api_key : string) : M MemuClient :=
  fun w =>
    (sdk_new (outside w) (sdk_news w), constructed w,
     [EvSdkNew base_url api_key]).

(** [await asyncio.to_thread(client.memorize_conversation, ..)]. *)
Definition MemuClient_memorize_conversation (client : MemuClient)
    (conversation user_id user_name agent_id agent_name : PyVal)
    : M (option PyVal) :=
  fun w =>
    (sdk_memorize (outside w) (sdk_memorizes w), called w,
     [EvSdkMemorize client conversation user_id user_name agent_id agent_name]).

(** The entries into adapter methods among the events of a run. *)
Definition adapter_calls (t : list Event) : list AdapterCall :=
  omap (fun ev => match ev with EvAdapter c => Some c | _ => None end) t.

End Effects.
End Eff.
Export Eff.

Declare Scope eff_scope.
Delimit Scope eff_scope with eff.
Notation "x <- m ;; k" := (bind m (fun x => k))
  (at level 100, m at level 99, right associativity) : eff_scope.
Notation "m ;; k" := (bind m (fun _ => k))
  (at level 100, right associativity) : eff_scope.
Local Open Scope eff_scope.

(** Building a dictionary from a display [{k1: v1, ..}]. *)
Definition dict_of {FL : FloatOps} (items : list (string * PyVal)) : gmap string PyVal :=
  list_to_map items.

(** ** The backend adapter: [memu_client.py] *)

Module MemuClientWrapper.
Section Adapter.
Context {FL : FloatOps} {logger : Logger}.

Definition ClientNotInitialized : Exc :=
  Exception RuntimeError "Client not initialized".

(** [__init__]: [max_retries] and [base_delay] are what the environment
    variables [MAX_RETRY_ATTEMPTS] and [WORKER_RESTART_DELAY] parse to. *)
Definition __init__ (cfg : Config) (max_retries : Z) (base_delay : float) : Wrapper :=
  {| config := cfg; _client := None; _logger := false; _retry_count := 0;
     _max_retries := max_retries; _base_delay := base_delay |}.

Definition set_logger : M unit := update_self (with_logger true).

(** [if self._logger: self._logger.log_memu_api_call(..)]: a
    [BoundLogger] has no such method. *)
Definition log_memu_api_call (method : string) (response_time : float)
    (success : bool) : M unit :=
  s <- get_self ;;
  if _logger s then
    match logger with
    | MemuLogger => emit (EvApiLog method response_time success)
    | BoundLogger => raise (no_attribute "BoundLogger" "log_memu_api_call")
    end
  else ret tt.

(** [_test_connection]: the probe is a placeholder that only times itself. *)
Definition _test_connection : M unit :=
  try_except
    (start_time <- time_time ;;
     now <- time_time ;;
     log_memu_api_call "test_connection" (fsub now start_time) true)
    (fun e =>
       log_memu_api_call "test_connection" (float_of_int 0) false ;;
       raise e).

(** [range(n)]. *)
Definition range (n : Z) : list Z := map Z.of_nat (seq 0 (Z.to_nat n)).

(** The body of the [try] of one iteration of [initialize]. *)
Definition connect_once : M unit :=
  s <- get_self ;;
  c <- MemuClient_new (memu_base_url (config s)) (memu_api_key (config s)) ;;
  update_self (with_client (Some c)) ;;
  _test_connection ;;
  update_self (with_retry_count 0).

Definition initialize_failed (max_retries : Z) (e : Exc) : Exc :=
  Exception ConnectionError
    ("Failed to initialize memU client after " ++ pretty (max_retries + 1)
     ++ " attempts: " ++ exc_str e).

(** [for attempt in attempts: ..], the loop of [initialize].  The delay
    is computed inside the [except] block, so an exception of
    [self._base_delay * (2 ** attempt)] leaves [initialize]. *)
Fixpoint initialize_loop (attempts : list Z) : M unit :=
  match attempts with
  | [] => ret tt
  | attempt :: rest =>
      try_except connect_once
        (fun e =>
           s <- get_self ;;
           if attempt <? _max_retries s then
             delay <- fmul_int (_base_delay s) (2 ^ attempt) ;;
             asyncio_sleep delay ;;
             initialize_loop rest
           else raise (initialize_failed (_max_retries s) e))
  end.

Definition initialize : M unit :=
  s <- get_self ;;
  initialize_loop (range (_max_retries s + 1)).

(** [len(conversation.split())]. *)
Definition split_count (conversation : PyVal) : M Z :=
  match conversation with
  | PStr s => ret (Z.of_nat (length (split s)))
  | v => raise (Exception AttributeError
                  ("'" ++ type_name v ++ "' object has no attribute 'split'"))
  end.

(** The result mapping; [result] is the [id] attribute of the object the
    SDK returned, if it has one ([getattr(result, 'id', None)]). *)
Definition memorize_result (result : option PyVal) (tokens : Z)
    (response_time : float) : gmap string PyVal :=
  dict_of
    [("success", PBool true);
     ("message", PStr "Conversation memorized successfully");
     ("memory_id", default PNone result);
     ("tokens_processed", PInt tokens);
     ("processing_time", PFloat (fround response_time 3))].

Definition memorize_conversation
    (conversation user_id user_name agent_id agent_name : PyVal)
    : M (gmap string PyVal) :=
  emit (EvAdapter (call_memorize_conversation
                     conversation user_id user_name agent_id agent_name)) ;;
  s <- get_self ;;
  match _client s with
  | None => raise ClientNotInitialized
  | Some client =>
      start_time <- time_time ;;
      try_except
        (result <- MemuClient_memorize_conversation client
                     conversation user_id user_name agent_id agent_name ;;
         now <- time_time ;;
         let response_time := fsub now start_time in
         log_memu_api_call "memorize_conversation" response_time true ;;
         tokens <- split_count conversation ;;
         ret (memorize_result result tokens response_time))
        (fun e =>
           now <- time_time ;;
           let response_time := fsub now start_time in
           log_memu_api_call "memorize_conversation" response_time false ;;
           raise (Exception RuntimeError
                    ("Failed to memorize conversation: " ++ exc_str e)))
  end.

Definition retrieve_result (query user_id : PyVal) (response_time : float)
    : gmap string PyVal :=
  dict_of
    [("success", PBool true);
     ("memories",
      PList [PDict (dict_of
        [("id", PStr "mem_001");
         ("content", PStr "Example memory content related to query");
         ("relevance_score", PFloat (float_lit 85 2));
         ("timestamp", PStr "2024-01-01T12:00:00Z");
         ("user_id", user_id);
         ("metadata", PDict (dict_of
            [("conversation_id", PStr "conv_001");
             ("agent_id", PStr "agent_001")]))])]);
     ("total_found", PInt 1);
     ("query", query);
     ("processing_time", PFloat (fround response_time 3))].

Definition retrieve_memory (query user_id limit : PyVal)
    : M (gmap string PyVal) :=
  emit (EvAdapter (call_retrieve_memory query user_id limit)) ;;
  s <- get_self ;;
  match _client s with
  | None => raise ClientNotInitialized
  | Some _ =>
      start_time <- time_time ;;
      try_except
        (asyncio_sleep (float_lit 1 1) ;;
         now <- time_time ;;
         let response_time := fsub now start_time in
         log_memu_api_call "retrieve_memory" response_time true ;;
         ret (retrieve_result query user_id response_time))
        (fun e =>
           now <- time_time ;;
           let response_time := fsub now start_time in
           log_memu_api_call "retrieve_memory" response_time false ;;
           raise (Exception RuntimeError
                    ("Failed to retrieve memories: " ++ exc_str e)))
  end.

Definition search_result (search_query user_id filters : PyVal)
    (response_time : float) : gmap string PyVal :=
  dict_of
    [("success", PBool true);
     ("results",
      PList [PDict (dict_of
        [("id", PStr "mem_002");
         ("content", PStr "Memory content matching search query");
         ("similarity_score", PFloat (float_lit 92 2));
         ("timestamp", PStr "2024-01-01T12:00:00Z");
         ("user_id", user_id)])]);
     ("total_results", PInt 1);
     ("search_query", search_query);
     ("filters_applied", if truthy filters then filters else PDict ∅);
     ("processing_time", PFloat (fround response_time 3))].

Definition search_memory (search_query user_id filters limit : PyVal)
    : M (gmap string PyVal) :=
  emit (EvAdapter (call_search_memory search_query user_id filters limit)) ;;
  s <- get_self ;;
  match _client s with
  | None => raise ClientNotInitialized
  | Some _ =>
      start_time <- time_time ;;
      try_except
        (asyncio_sleep (float_lit 1 1) ;;
         now <- time_time ;;
         let response_time := fsub now start_time in
         log_memu_api_call "search_memory" response_time true ;;
         ret (search_result search_query user_id filters response_time))
        (fun e =>
           now <- time_time ;;
           let response_time := fsub now start_time in
           log_memu_api_call "search_memory" response_time false ;;
           raise (Exception RuntimeError
                    ("Failed to search memories: " ++ exc_str e)))
  end.

Definition update_result (memory_id new_content : PyVal)
    (response_time : float) : gmap string PyVal :=
  dict_of
    [("success", PBool true);
     ("message", PStr "Memory updated successfully");
     ("memory_id", memory_id);
     ("updated_content", new_content);
     ("processing_time", PFloat (fround response_time 3))].

Definition update_memory (memory_id new_content user_id : PyVal)
    : M (gmap string PyVal) :=
  emit (EvAdapter (call_update_memory memory_id new_content user_id)) ;;
  s <- get_self ;;
  match _client s with
  | None => raise ClientNotInitialized
  | Some _ =>
      start_time <- time_time ;;
      try_except
        (asyncio_sleep (float_lit 5 2) ;;
         now <- time_time ;;
         let response_time := fsub now start_time in
         log_memu_api_call "update_memory" response_time true ;;
         ret (update_result memory_id new_content response_time))
        (fun e =>
           now <- time_time ;;
           let response_time := fsub now start_time in
           log_memu_api_call "update_memory" response_time false ;;
           raise (Exception RuntimeError
                    ("Failed to update memory: " ++ exc_str e)))
  end.

Definition delete_result (memory_id : PyVal) (response_time : float)
    : gmap string PyVal :=
  dict_of
    [("success", PBool true);
     ("message", PStr "Memory deleted successfully");
     ("memory_id", memory_id);
     ("processing_time", PFloat (fround response_time 3))].

Definition delete_memory (memory_id user_id : PyVal)
    : M (gmap string PyVal) :=
  emit (EvAdapter (call_delete_memory memory_id user_id)) ;;
  s <- get_self ;;
  match _client s with
  | None => raise ClientNotInitialized
  | Some _ =>
      start_time <- time_time ;;
      try_except
        (asyncio_sleep (float_lit 5 2) ;;
         now <- time_time ;;
         let response_time := fsub now start_time in
         log_memu_api_call "delete_memory" response_time true ;;
         ret (delete_result memory_id response_time))
        (fun e =>
           now <- time_time ;;
           let response_time := fsub now start_time in
           log_memu_api_call "delete_memory" response_time false ;;
           raise (Exception RuntimeError
                    ("Failed to delete memory: " ++ exc_str e)))
  end.

Definition stats_details : PyVal :=
  PDict (dict_of
    [("memories_by_agent",
      PDict (dict_of [("agent_001", PInt 25); ("agent_002", PInt 17)]));
     ("memory_types",
      PDict (dict_of [("conversation", PInt 35); ("facts", PInt 7)]));
     ("date_range",
      PDict (dict_of [("earliest", PStr "2023-12-01T00:00:00Z");
                      ("latest", PStr "2024-01-01T12:00:00Z")]))]).

Definition stats_result (user_id include_details : PyVal)
    (response_time : float) : gmap string PyVal :=
  let stats :=
    dict_of
      [("success", PBool true);
       ("user_id", user_id);
       ("total_memories", PInt 42);
       ("total_conversations", PInt 15);
       ("memory_size_mb", PFloat (float_lit 12 1));
       ("last_updated", PStr "2024-01-01T12:00:00Z");
       ("processing_time", PFloat (fround response_time 3))] in
  if truthy include_details
  then <["details" := stats_details]> stats
  else stats.

Definition get_memory_stats (user_id include_details : PyVal)
    : M (gmap string PyVal) :=
  emit (EvAdapter (call_get_memory_stats user_id include_details)) ;;
  s <- get_self ;;
  match _client s with
  | None => raise ClientNotInitialized
  | Some _ =>
      start_time <- time_time ;;
      try_except
        (asyncio_sleep (float_lit 1 1) ;;
         now <- time_time ;;
         let response_time := fsub now start_time in
         log_memu_api_call "get_memory_stats" response_time true ;;
         ret (stats_result user_id include_details response_time))
        (fun e =>
           now <- time_time ;;
           let response_time := fsub now start_time in
           log_memu_api_call "get_memory_stats" response_time false ;;
           raise (Exception RuntimeError
                    ("Failed to get memory stats: " ++ exc_str e)))
  end.

Definition close : M unit :=
  s <- get_self ;;
  match _client s with
  | Some _ => update_self (with_client None)
  | None => ret tt
  end.

End Adapter.
End MemuClientWrapper.

(** ** The tool handlers: [tools.py] *)

Module MemoryTools.
Section Tools.
Context {FL : FloatOps} {logger : Logger}.

(** [__init__] hands the logger to the adapter. *)
Definition __init__ : M unit := MemuClientWrapper.set_logger.

(** [self.logger.log_tool_call(..)]: a [BoundLogger] has no such method. *)
Definition log_tool_call (tool_name : string) (arguments : gmap string PyVal)
    (success : bool) : M unit :=
  match logger with
  | MemuLogger => emit (EvToolLog tool_name arguments success)
  | BoundLogger => raise (no_attribute "BoundLogger" "log_tool_call")
  end.

Definition ValueError_ (msg : string) : Exc := Exception ValueError msg.

(** [len(v)] as a computation. *)
Definition py_len (v : PyVal) : M Z :=
  match len v with
  | Some n => ret n
  | None => raise (Exception TypeError
                     ("object of type '" ++ type_name v ++ "' has no len()"))
  end.

(** [except Exception as e: .. log_tool_call(name, arguments, success=False); raise]. *)
Definition log_failure_and_reraise (tool_name : string)
    (arguments : gmap string PyVal) (e : Exc) : M (gmap string PyVal) :=
  log_tool_call tool_name arguments false ;;
  raise e.

Definition memorize_conversation (arguments : gmap string PyVal)
    : M (gmap string PyVal) :=
  try_except
    (let conversation := dict_get arguments "conversation" in
     if negb (truthy conversation) then
       raise (ValueError_ "conversation is required")
     else
       let user_id := dict_get_or arguments "user_id" (PStr "default_user") in
       let user_name := dict_get_or arguments "user_name" (PStr "User") in
       let agent_id := dict_get_or arguments "agent_id" (PStr "default_agent") in
       let agent_name := dict_get_or arguments "agent_name" (PStr "Assistant") in
       n <- py_len conversation ;;
       if n >? 100000 then
         raise (ValueError_ "Conversation too long (max 100,000 characters)")
       else
         log_tool_call "memorize_conversation" arguments true ;;
         MemuClientWrapper.memorize_conversation
           conversation user_id user_name agent_id agent_name)
    (log_failure_and_reraise "memorize_conversation" arguments).

(** [not isinstance(limit, int) or limit < 1 or limit > 50]. *)
Definition bad_limit (limit : PyVal) : bool :=
  negb (isinstance_int limit)
  || (int_value limit <? 1) || (int_value limit >? 50).

Definition limit_message : string :=
  "limit must be an integer between 1 and 50".

Definition retrieve_memory (arguments : gmap string PyVal)
    : M (gmap string PyVal) :=
  try_except
    (let query := dict_get arguments "query" in
     if negb (truthy query) then
       raise (ValueError_ "query is required")
     else
       let user_id := dict_get_or arguments "user_id" (PStr "default_user") in
       let limit := dict_get_or arguments "limit" (PInt 10) in
       if bad_limit limit then
         raise (ValueError_ limit_message)
       else
         log_tool_call "retrieve_memory" arguments true ;;
         MemuClientWrapper.retrieve_memory query user_id limit)
    (log_failure_and_reraise "retrieve_memory" arguments).

Definition search_memory (arguments : gmap string PyVal)
    : M (gmap string PyVal) :=
  try_except
    (let search_query := dict_get arguments "search_query" in
     if negb (truthy search_query) then
       raise (ValueError_ "search_query is required")
     else
       let user_id := dict_get_or arguments "user_id" (PStr "default_user") in
       let filters := dict_get_or arguments "filters" (PDict ∅) in
       let limit := dict_get_or arguments "limit" (PInt 10) in
       if bad_limit limit then
         raise (ValueError_ limit_message)
       else if truthy filters && negb (isinstance_dict filters) then
         raise (ValueError_ "filters must be a dictionary")
       else
         log_tool_call "search_memory" arguments true ;;
         MemuClientWrapper.search_memory search_query user_id filters limit)
    (log_failure_and_reraise "search_memory" arguments).

Definition action_message : string :=
  "action must be 'update' or 'delete'".

Definition manage_memory (arguments : gmap string PyVal)
    : M (gmap string PyVal) :=
  try_except
    (let action := dict_get arguments "action" in
     if negb (in_strs action ["update"; "delete"]) then
       raise (ValueError_ action_message)
     else
       let memory_id := dict_get arguments "memory_id" in
       if negb (truthy memory_id) then
         raise (ValueError_ "memory_id is required")
       else
         let user_id := dict_get_or arguments "user_id" (PStr "default_user") in
         log_tool_call "manage_memory" arguments true ;;
         if eq_str action "update" then
           let new_content := dict_get arguments "new_content" in
           if negb (truthy new_content) then
             raise (ValueError_ "new_content is required for update action")
           else
             MemuClientWrapper.update_memory memory_id new_content user_id
         else if eq_str action "delete" then
           MemuClientWrapper.delete_memory memory_id user_id
         else
           (* [result] would be unbound at [return result] *)
           raise (Exception UnboundLocalError
                    "cannot access local variable 'result' where it is not associated with a value"))
    (log_failure_and_reraise "manage_memory" arguments).

Definition get_memory_stats (arguments : gmap string PyVal)
    : M (gmap string PyVal) :=
  try_except
    (let user_id := dict_get_or arguments "user_id" (PStr "default_user") in
     let include_details := dict_get_or arguments "include_details" (PBool false) in
     if negb (isinstance_bool include_details) then
       raise (ValueError_ "include_details must be a boolean")
     else
       log_tool_call "get_memory_stats" arguments true ;;
       MemuClientWrapper.get_memory_stats user_id include_details)
    (log_failure_and_reraise "get_memory_stats" arguments).

End Tools.
End MemoryTools.

(** ** The dispatcher: [call_tool] of [server.py] *)

Module Server.
Section Dispatch.
Context {FL : FloatOps} {logger : Logger}.

(** The text of a [TextContent]: a literal, or [str(result)] of a result
    mapping, which is kept as the mapping it renders. *)
Inductive Text :=
  | TextLit (s : string)
  | TextStr (result : gmap string PyVal).

Record CallToolResult := { content : list Text; isError : bool }.

Definition tool_names : list string :=
  ["memorize_conversation"; "retrieve_memory"; "search_memory";
   "manage_memory"; "get_memory_stats"].

(** [call_tool], over the handlers of [self.memory_tools], which hold
    [logger]. *)
Definition call_tool (name : string) (arguments : gmap string PyVal)
    : M CallToolResult :=
  try_except
    (result <-
       (if String.eqb name "memorize_conversation" then
          MemoryTools.memorize_conversation arguments
        else if String.eqb name "retrieve_memory" then
          MemoryTools.retrieve_memory arguments
        else if String.eqb name "search_memory" then
          MemoryTools.search_memory arguments
        else if String.eqb name "manage_memory" then
          MemoryTools.manage_memory arguments
        else if String.eqb name "get_memory_stats" then
          MemoryTools.get_memory_stats arguments
        else
          raise (Exception ValueError ("Unknown tool: " ++ name))) ;;
     ret {| content := [TextStr result]; isError := false |})
    (fun e =>
       match exc_class e with
       | ValueError =>
           ret {| content := [TextLit ("Error: " ++ exc_str e)];
                  isError := true |}
       | _ =>
           ret {| content := [TextLit ("Internal error: " ++ exc_str e)];
                  isError := true |}
       end).

End Dispatch.
End Server.

(** ** Observing a run *)

Section Observing.
Context {FL : FloatOps} {A : Type}.

Definition outcome (m : M A) (w : World) : Result A := (m w).1.1.
Definition world_after (m : M A) (w : World) : World := (m w).1.2.
Definition events (m : M A) (w : World) : list Event := (m w).2.

(** The call is refused with [ValueError(msg)] and no method of the
    backend adapter is entered. *)
Definition rejected_with (m : M A) (w : World) (msg : string) : Prop :=
  outcome m w = Raised (Exception ValueError msg)
  /\ adapter_calls (events m w) = [].

Definition fails_validation (r : Result A) : Prop :=
  exists msg, r = Raised (Exception ValueError msg).

End Observing.

Global Arguments float_overflows : simpl never.
Global Arguments dict_get : simpl never.
Global Arguments dict_get_or : simpl never.
Global Arguments dict_of : simpl never.
Global Arguments MemuClientWrapper.memorize_result : simpl never.
Global Arguments MemuClientWrapper.retrieve_result : simpl never.
Global Arguments MemuClientWrapper.search_result : simpl never.
Global Arguments MemuClientWrapper.update_result : simpl never.
Global Arguments MemuClientWrapper.delete_result : simpl never.
Global Arguments MemuClientWrapper.stats_result : simpl never.
Global Arguments MemuClientWrapper.memorize_conversation : simpl never.
Global Arguments MemuClientWrapper.retrieve_memory : simpl never.
Global Arguments MemuClientWrapper.search_memory : simpl never.
Global Arguments MemuClientWrapper.update_memory : simpl never.
Global Arguments MemuClientWrapper.delete_memory : simpl never.
Global Arguments MemuClientWrapper.get_memory_stats : simpl never.

Section Wordings.
Context {FL : FloatOps}.

(** The uniform rule of the specification for a missing required
    parameter: the message is ["<name> is required"]. *)
Definition rejected_as_required
    (handler : gmap string PyVal -> M (gmap string PyVal))
    (name : string) (arguments : gmap string PyVal) (w : World) : Prop :=
  rejected_with (handler arguments) w (name ++ " is required").

(** The limit rule in the words of the specification: a limit is good
    when it is an integer from 1 to 50, and a supplied limit that is
    anything else is to be refused. *)
Definition integer_in_range (v : PyVal) : Prop :=
  exists z, v = PInt z /\ 1 <= z <= 50.

Definition limit_refused (arguments : gmap string PyVal) : Prop :=
  exists v, arguments !! "limit" = Some v /\ ~ integer_in_range v.

(** A limit that is [true] or [false]. *)
Definition boolean_limit (arguments : gmap string PyVal) : Prop :=
  exists b, arguments !! "limit" = Some (PBool b).

(** The limit rule as the specification words it, for all argument
    mappings: the call fails validation exactly when the supplied limit is
    not an integer from 1 to 50, and every validation failure carries the
    limit message. *)
Definition limit_alone_decides
    (handler : gmap string PyVal -> M (gmap string PyVal))
    (arguments : gmap string PyVal) (w : World) : Prop :=
  (fails_validation (outcome (handler arguments) w)
     <-> limit_refused arguments)
  /\ (fails_validation (outcome (handler arguments) w) ->
      outcome (handler arguments) w
        = Raised (Exception ValueError MemoryTools.limit_message)).

(** What the check [bad_limit] of the handlers lets through. *)
Definition limit_in_range (v : PyVal) : Prop :=
  isinstance_int v = true /\ 1 <= int_value v <= 50.

Definition supplied_limit_bad (arguments : gmap string PyVal) : Prop :=
  exists v, arguments !! "limit" = Some v /\ ~ limit_in_range v.

(** The filters a [search_memory] call lets through: falsy, or a dict. *)
Definition filters_pass (filters : PyVal) : Prop :=
  truthy filters && negb (isinstance_dict filters) = false.

(** The connection attempts of a run. *)
Definition attempts (t : list Event) : nat :=
  length (List.filter
            (fun ev => match ev with EvSdkNew _ _ => true | _ => false end) t).


Definition is_raised {A} (r : Result A) : Prop :=
  exists e, r = Raised e.

(** The next two readings of the clock and the time between them. *)
Definition reading (w : World) (i : nat) : float :=
  clock (outside w) (i + clock_reads w).

Definition elapsed (w : World) : float :=
  fsub (reading w 1) (reading w 0).

(** The record of an adapter call in the structured log, if a logger is
    set. *)
Definition api_log (w : World) (method : string) (response_time : float)
    (success : bool) : list Event :=
  if _logger (self w) then [EvApiLog method response_time success] else [].

(** What a successful attempt adds to the trace: the construction and the
    self-timed probe. *)
Definition connect_events (w : World) : list Event :=
  (EvSdkNew (memu_base_url (config (self w))) (memu_api_key (config (self w)))
   :: EvClock (reading w 0) :: EvClock (reading w 1)
   :: api_log w "test_connection" (elapsed w) true)%list.


(** The world a successful attempt leaves: the handle stored, the retry
    counter reset, one construction and two readings of the clock made. *)
Definition session_opened (c : MemuClient) (w : World) : World :=
  {| self := with_retry_count 0 (with_client (Some c) (self w));
     outside := outside w; clock_reads := S (S (clock_reads w));
     sdk_news := S (sdk_news w); sdk_memorizes := sdk_memorizes w |}.

(** What a placeholder adapter method adds to the trace when the session
    is live: its entry, then a sleep between two readings of the clock. *)
Definition placeholder_events (w : World) (c : AdapterCall)
    (method : string) (delay : float) : list Event :=
  (EvAdapter c :: EvClock (reading w 0) :: EvSleep delay
   :: EvClock (reading w 1) :: api_log w method (elapsed w) true)%list.

End Wordings.

Global Arguments api_log : simpl never.
Global Arguments placeholder_events : simpl never.

(** ** Concrete inputs *)

Module Demo.
#[local] Existing Instance exact_floats.

Definition cfg : Config :=
  {| memu_base_url := "https://api.memu.so"; memu_api_key := "secret" |}.

(** A backend that answers. *)
Definition up : Outside :=
  {| clock := fun n => inject_Z (Z.of_nat n);
     sdk_new := fun n => Ok n;
     sdk_memorize := fun _ => Ok (Some (PStr "mem_001")) |}.

(** A backend that always fails. *)
Definition down : Outside :=
  {| clock := fun n => inject_Z (Z.of_nat n);
     sdk_new := fun _ => Raised (Exception SdkError "connection refused");
     sdk_memorize := fun _ => Raised (Exception SdkError "unavailable") |}.

(** A wrapper as [__init__] leaves it. *)
Definition fresh (o : Outside) (max_retries : Z) : World :=
  {| self := MemuClientWrapper.__init__ cfg max_retries (5 # 1);
     outside := o; clock_reads := 0; sdk_news := 0; sdk_memorizes := 0 |}.

(** A wrapper with a logger and a live session. *)
Definition connected : World :=
  {| self := with_client (Some 0%nat)
               (with_logger true (MemuClientWrapper.__init__ cfg 3 (5 # 1)));
     outside := up; clock_reads := 2; sdk_news := 1; sdk_memorizes := 0 |}.

(** A text of [n] characters. *)
Definition text_of_length (n : N) : string :=
  N.iter n (String "x") EmptyString.

Definition args (items : list (string * PyVal)) : gmap string PyVal :=
  dict_of items.

Definition no_arguments : gmap string PyVal := ∅.

(** [manage_memory] calls: an action outside the enumeration; a call
    still lacking its action and [new_content], with and without
    [memory_id]. *)
Definition bogus_action : gmap string PyVal :=
  args [("action", PStr "bogus"); ("memory_id", PStr "mem_001");
        ("new_content", PStr "text")].

Definition manage_call : gmap string PyVal :=
  args [("memory_id", PStr "mem_001"); ("user_id", PStr "test_user")].

Definition manage_call_without_id : gmap string PyVal :=
  args [("user_id", PStr "test_user")].

(** [retrieve_memory] and [search_memory] calls with a given limit. *)
Definition retrieve_call (limit : PyVal) : gmap string PyVal :=
  args [("query", PStr "test"); ("limit", limit)].

Definition search_call (limit : PyVal) : gmap string PyVal :=
  args [("search_query", PStr "test"); ("limit", limit)].

(** A [memorize_conversation] call. *)
Definition memorize_call (conversation : string) : gmap string PyVal :=
  args [("conversation", PStr conversation); ("user_id", PStr "test_user")].

Definition greeting : string := "User: Hello! Assistant: Hi there!".
End Demo.

(** ** The server object: [MemuMCPServer] of [server.py] *)

Module ConfigMethods.
Section Methods.
Context {FL : FloatOps}.

(** [getattr(self, field)] on the fields the gateway reads. *)
Definition getattr (cfg : Config) (field : string) : string :=
  if String.eqb field "memu_api_key" then memu_api_key cfg
  else if String.eqb field "memu_base_url" then memu_base_url cfg
  else "".

Definition required_fields : list string := ["memu_api_key"].

(** [for field in fields: if not getattr(self, field): raise ValueError(..)]. *)
Fixpoint check_fields (cfg : Config) (fields : list string) : M unit :=
  match fields with
  | [] => ret tt
  | field :: rest =>
      if String.eqb (getattr cfg field) "" then
        raise (Exception ValueError
                 ("Required configuration field missing: " ++ field))
      else check_fields cfg rest
  end.

Definition validate_required_fields (cfg : Config) : M bool :=
  check_fields cfg required_fields ;;
  ret true.

End Methods.
End ConfigMethods.

Module MemuMCPServer.

(** [setup_logger(log_level)] returns [structlog.get_logger(..)], with
    [structlog.stdlib.BoundLogger] as the wrapper class in both of its
    branches. *)
Definition setup_logger : Logger := BoundLogger.

Section ServerObject.
Context {FL : FloatOps} {logger : Logger}.

(** [try: body  finally: final]: [final] runs whatever [body] does, and an
    exception of [final] replaces the outcome of [body]. *)
Definition try_finally {A} (body : M A) (final : M unit) : M A :=
  fun w =>
    match body w with
    | (r, w1, t1) =>
        match final w1 with
        | (Ok _, w2, t2) => (r, w2, (t1 ++ t2)%list)
        | (Raised e, w2, t2) => (Raised e, w2, (t1 ++ t2)%list)
        end
    end.

(** [__init__]: the wrapper the server creates, its [_logger] set by
    [MemoryTools(self.memu_client, self.logger)].  The logger of a server
    is [self.logger = setup_logger(..)]: its handlers, its [call_tool] and
    its [run] are the definitions of this file at [logger := setup_logger]. *)
Definition __init__ (cfg : Config) (max_retries : Z) (base_delay : float)
    : Wrapper :=
  with_logger true (MemuClientWrapper.__init__ cfg max_retries base_delay).

(** One entry of the catalogue: [Tool(name=.., description=.., inputSchema=..)],
    the schema being the dictionary display of the source. *)
Record Tool := { name : string; description : string; inputSchema : PyVal }.

Definition obj (items : list (string * PyVal)) : PyVal := PDict (dict_of items).

Definition strs (l : list string) : PyVal := PList (map PStr l).

(** [list_tools]; the two defaults it advertises are
    [self.config.default_user_id] and [self.config.default_agent_id]. *)
Definition list_tools (default_user_id default_agent_id : string) : list Tool :=
  [ {| name := "memorize_conversation";
       description := "Store a conversation in memory for future reference";
       inputSchema := obj
         [("type", PStr "object");
          ("properties", obj
             [("conversation", obj
                 [("type", PStr "string");
                  ("description", PStr "The conversation text to memorize")]);
              ("user_id", obj
                 [("type", PStr "string");
                  ("description", PStr "Unique identifier for the user");
                  ("default", PStr default_user_id)]);
              ("user_name", obj
                 [("type", PStr "string");
                  ("description", PStr "Display name for the user")]);
              ("agent_id", obj
                 [("type", PStr "string");
                  ("description", PStr "Unique identifier for the AI agent");
                  ("default", PStr default_agent_id)]);
              ("agent_name", obj
                 [("type", PStr "string");
                  ("description", PStr "Display name for the AI agent")])]);
          ("required", strs ["conversation"])] |};
    {| name := "retrieve_memory";
       description := "Retrieve relevant memories based on context";
       inputSchema := obj
         [("type", PStr "object");
          ("properties", obj
             [("query", obj
                 [("type", PStr "string");
                  ("description", PStr "Query to search for relevant memories")]);
              ("user_id", obj
                 [("type", PStr "string");
                  ("description", PStr "User ID to search memories for");
                  ("default", PStr default_user_id)]);
              ("limit", obj
                 [("type", PStr "integer");
                  ("description", PStr "Maximum number of memories to retrieve");
                  ("default", PInt 10);
                  ("minimum", PInt 1);
                  ("maximum", PInt 50)])]);
          ("required", strs ["query"])] |};
    {| name := "search_memory";
       description := "Search memories using semantic similarity";
       inputSchema := obj
         [("type", PStr "object");
          ("properties", obj
             [("search_query", obj
                 [("type", PStr "string");
                  ("description", PStr "Text to search for in memories")]);
              ("user_id", obj
                 [("type", PStr "string");
                  ("description", PStr "User ID to search memories for");
                  ("default", PStr default_user_id)]);
              ("filters", obj
                 [("type", PStr "object");
                  ("description", PStr "Additional filters for search");
                  ("properties", obj
                     [("date_from", obj [("type", PStr "string");
                                         ("format", PStr "date")]);
                      ("date_to", obj [("type", PStr "string");
                                       ("format", PStr "date")]);
                      ("agent_id", obj [("type", PStr "string")])])]);
              ("limit", obj
                 [("type", PStr "integer");
                  ("description", PStr "Maximum number of results");
                  ("default", PInt 10);
                  ("minimum", PInt 1);
                  ("maximum", PInt 50)])]);
          ("required", strs ["search_query"])] |};
    {| name := "manage_memory";
       description := "Update or delete specific memories";
       inputSchema := obj
         [("type", PStr "object");
          ("properties", obj
             [("action", obj
                 [("type", PStr "string");
                  ("enum", strs ["update"; "delete"]);
                  ("description", PStr "Action to perform on the memory")]);
              ("memory_id", obj
                 [("type", PStr "string");
                  ("description", PStr "ID of the memory to manage")]);
              ("new_content", obj
                 [("type", PStr "string");
                  ("description", PStr "New content for update action")]);
              ("user_id", obj
                 [("type", PStr "string");
                  ("description", PStr "User ID who owns the memory");
                  ("default", PStr default_user_id)])]);
          ("required", strs ["action"; "memory_id"])] |};
    {| name := "get_memory_stats";
       description := "Get statistics about stored memories";
       inputSchema := obj
         [("type", PStr "object");
          ("properties", obj
             [("user_id", obj
                 [("type", PStr "string");
                  ("description", PStr "User ID to get stats for");
                  ("default", PStr default_user_id)]);
              ("include_details", obj
                 [("type", PStr "boolean");
                  ("description", PStr "Include detailed breakdown");
                  ("default", PBool false)])])] |} ].

(** [run]; [serve] stands for the block
    [async with self.mcp_server.stdio_server() ..: await self.mcp_server.run(..)]
    of the MCP library, whatever it does. *)
Definition run (serve : M unit) : M unit :=
  try_finally
    (try_except
       (s <- get_self ;;
        ConfigMethods.validate_required_fields (config s) ;;
        MemuClientWrapper.initialize ;;
        serve)
       (fun e => raise e))
    MemuClientWrapper.close.

End ServerObject.
End MemuMCPServer.

(** ** The HTTP side: [format_uptime] of [api.py] *)

Module MemuMCPAPI.
Section Uptime.
Context {FL : FloatOps}.

(** [int(x)] on floats, the one operation on floats this function needs. *)
Variable int_ : float -> Z.

(** The four counts [format_uptime] computes; [//] and [%] round to the
    floor, as [Z.div] and [Z.modulo] do for a positive divisor. *)
Definition uptime_parts (uptime : Z) : Z * Z * Z * Z :=
  (uptime / 86400, (uptime mod 86400) / 3600, (uptime mod 3600) / 60,
   uptime mod 60).

Definition format_uptime (uptime_seconds : float) : string :=
  let uptime := int_ uptime_seconds in
  let '(days, hours, minutes, seconds) := uptime_parts uptime in
  if days >? 0 then
    pretty days ++ "d " ++ pretty hours ++ "h " ++ pretty minutes ++ "m "
    ++ pretty seconds ++ "s"
  else if hours >? 0 then
    pretty hours ++ "h " ++ pretty minutes ++ "m " ++ pretty seconds ++ "s"
  else if minutes >? 0 then
    pretty minutes ++ "m " ++ pretty seconds ++ "s"
  else
    pretty seconds ++ "s".

End Uptime.
End MemuMCPAPI.

(** ** Reading schemas and traces *)

Section Readings.
Context {FL : FloatOps} {logger : Logger}.

(** [schema[key]] of a dictionary value, [None] standing for a missing key. *)
Definition field (v : PyVal) (key : string) : option PyVal :=
  match v with PDict d => d !! key | _ => None end.

(** The names under ["required"] of the schema of a tool (none when the key
    is missing) and the names under ["properties"]. *)
Definition required_of (t : MemuMCPServer.Tool) : list string :=
  match field (MemuMCPServer.inputSchema t) "required" with
  | Some (PList l) =>
      omap (fun v => match v with PStr s => Some s | _ => None end) l
  | _ => []
  end.

Definition property_of (t : MemuMCPServer.Tool) (p : string) : option PyVal :=
  match field (MemuMCPServer.inputSchema t) "properties" with
  | Some props => field props p
  | None => None
  end.

(** The handler [call_tool] runs for each name of its chain of comparisons. *)
Definition dispatch_table
    : list (string * (gmap string PyVal -> M (gmap string PyVal))) :=
  [("memorize_conversation", MemoryTools.memorize_conversation);
   ("retrieve_memory", MemoryTools.retrieve_memory);
   ("search_memory", MemoryTools.search_memory);
   ("manage_memory", MemoryTools.manage_memory);
   ("get_memory_stats", MemoryTools.get_memory_stats)].

(** The envelope [call_tool] makes of the outcome of a handler. *)
Definition envelope (r : Result (gmap string PyVal)) : Server.CallToolResult :=
  match r with
  | Ok result =>
      {| Server.content := [Server.TextStr result]; Server.isError := false |}
  | Raised e =>
      {| Server.content :=
           [Server.TextLit
              ((match exc_class e with
                | ValueError => "Error: "
                | _ => "Internal error: "
                end) ++ exc_str e)];
         Server.isError := true |}
  end.

(** The structured records of tool calls among the events of a run, the
    SDK calls, and the sleeps. *)
Definition tool_logs (t : list Event) : list (string * bool) :=
  omap (fun ev => match ev with
                  | EvToolLog n _ ok => Some (n, ok)
                  | _ => None
                  end) t.

Definition sdk_calls (t : list Event) : nat :=
  length (List.filter
            (fun ev => match ev with
                       | EvSdkMemorize _ _ _ _ _ _ => true
                       | _ => false
                       end) t).

Definition sleeps (t : list Event) : nat :=
  length (List.filter
            (fun ev => match ev with EvSleep _ => true | _ => false end) t).

(** The part of the world a tool call leaves alone: the wrapper, what the
    outside answers, and the count of constructed SDK clients. *)
Definition same_session (w w' : World) : Prop :=
  self w' = self w /\ outside w' = outside w /\ sdk_news w' = sdk_news w.

(** A run that went past the point where the handlers log the call: an
    adapter method has been entered, or the run ended in the check that
    [manage_memory] makes after logging. *)
Definition logged_first
    (r : Result (gmap string PyVal) * World * list Event) : Prop :=
  adapter_calls r.2 <> []
  \/ r.1.1 = Raised (Exception ValueError
                       "new_content is required for update action").

(** What a handler leaves in the log and how often it reaches the backend. *)
Definition well_logged (name : string)
    (r : Result (gmap string PyVal) * World * list Event) : Prop :=
  match r.1.1 with
  | Ok _ => tool_logs r.2 = [(name, true)]
  | Raised _ =>
      (logged_first r -> tool_logs r.2 = [(name, true); (name, false)])
      /\ (~ logged_first r -> tool_logs r.2 = [(name, false)])
  end
  /\ (sdk_calls r.2 <= 1)%nat /\ (length (adapter_calls r.2) <= 1)%nat.

(** The limit an adapter call carries, for the two methods that take one. *)
Definition limit_of (c : AdapterCall) : option PyVal :=
  match c with
  | call_retrieve_memory _ _ limit => Some limit
  | call_search_memory _ _ _ limit => Some limit
  | _ => None
  end.

(** The fields of the wrapper that are set once and for all. *)
Definition same_settings (s s' : Wrapper) : Prop :=
  config s' = config s /\ _max_retries s' = _max_retries s
  /\ _base_delay s' = _base_delay s /\ _logger s' = _logger s.

(** A text made of whitespace only. *)
Definition all_space (s : string) : bool :=
  forallb isspace (list_ascii_of_string s).

End Readings.

(** ** More concrete inputs *)

Module Cases.
#[local] Existing Instance exact_floats.

(** A session that is live while the backend has gone away. *)
Definition backend_gone : World :=
  {| self := with_client (Some 0%nat)
               (with_logger true
                  (MemuClientWrapper.__init__ Demo.cfg 3 (5 # 1)));
     outside := Demo.down; clock_reads := 2; sdk_news := 1;
     sdk_memorizes := 0 |}.

(** A server that has everything but an API key. *)
Definition without_key : World :=
  {| self := MemuMCPServer.__init__
               {| memu_base_url := "https://api.memu.so"; memu_api_key := "" |}
               3 (5 # 1);
     outside := Demo.up; clock_reads := 0; sdk_news := 0; sdk_memorizes := 0 |}.

Definition stats_call (include_details : PyVal) : gmap string PyVal :=
  Demo.args [("include_details", include_details)].

Definition search_with (filters : PyVal) : gmap string PyVal :=
  Demo.args [("search_query", PStr "test"); ("filters", filters)].

Definition conversation_call (conversation : PyVal) : gmap string PyVal :=
  Demo.args [("conversation", conversation)].

(** A server as [MemuMCPServer(config)] creates it, with a key, before
    [run]. *)
Definition created (o : Outside) (max_retries : Z) : World :=
  {| self := MemuMCPServer.__init__ Demo.cfg max_retries (5 # 1);
     outside := o; clock_reads := 0; sdk_news := 0; sdk_memorizes := 0 |}.

(** Serving one call, on the server as it is wired. *)
Definition serve_once : M unit :=
  (Server.call_tool (logger := MemuMCPServer.setup_logger)
     "get_memory_stats" Demo.no_arguments ;; ret tt)%eff.

(** The catalogue under the default configuration, and two of its tools. *)
Definition catalogue : list MemuMCPServer.Tool :=
  MemuMCPServer.list_tools "default_user" "default_agent".

Definition retrieve_tool : MemuMCPServer.Tool :=
  nth 1 catalogue
    {| MemuMCPServer.name := ""; MemuMCPServer.description := "";
       MemuMCPServer.inputSchema := PNone |}.

Definition manage_tool : MemuMCPServer.Tool :=
  nth 3 catalogue
    {| MemuMCPServer.name := ""; MemuMCPServer.description := "";
       MemuMCPServer.inputSchema := PNone |}.

(** [int(x)] on exact rationals: truncation towards zero. *)
Definition int_of_Q (x : Q) : Z := Z.quot (Qnum x) (Z.pos (Qden x)).

End Cases.

(** ** Running the definitions *)

Create HintDb run discriminated.
#[global] Hint Unfold outcome events world_after rejected_with
  rejected_as_required try_except bind ret raise emit get_self update_self
  time_time asyncio_sleep
  MemuClientWrapper.log_memu_api_call MemuClientWrapper.ClientNotInitialized
  MemoryTools.log_failure_and_reraise MemoryTools.log_tool_call
  MemoryTools.ValueError_ MemoryTools.py_len : run.

(** Unfold the observers and the combinators, then run what is determined. *)
Ltac run_handler := autounfold with run; cbn.

(** Bring the body of a handler into the goal. *)
Ltac enter :=
  unfold rejected_as_required, rejected_with, outcome, events, world_after;
  unfold MemoryTools.memorize_conversation, MemoryTools.retrieve_memory,
    MemoryTools.search_memory, MemoryTools.manage_memory,
    MemoryTools.get_memory_stats.

Section Lookups.
Context {FL : FloatOps}.
Implicit Types (d : gmap string PyVal) (k : string) (v : PyVal).

Lemma dict_get_Some d k v : d !! k = Some v -> dict_get d k = v.
Proof. unfold dict_get. by intros ->. Qed.

Lemma dict_get_None d k : d !! k = None -> dict_get d k = PNone.
Proof. unfold dict_get. by intros ->. Qed.

Lemma dict_get_or_None d k dflt : d !! k = None -> dict_get_or d k dflt = dflt.
Proof. unfold dict_get_or. by intros ->. Qed.

Lemma dict_get_delete d k : dict_get (delete k d) k = PNone.
Proof. unfold dict_get. by rewrite lookup_delete_eq. Qed.

Lemma dict_get_delete_ne d k k' :
  k <> k' -> dict_get (delete k d) k' = dict_get d k'.
Proof. intros. unfold dict_get. by rewrite lookup_delete_ne. Qed.

Lemma dict_get_insert d k v : dict_get (<[k := v]> d) k = v.
Proof. unfold dict_get. by rewrite lookup_insert_eq. Qed.

Lemma dict_get_insert_ne d k k' v :
  k <> k' -> dict_get (<[k := v]> d) k' = dict_get d k'.
Proof. intros. unfold dict_get. by rewrite lookup_insert_ne. Qed.

Lemma dict_get_or_insert_ne d k k' v dflt :
  k <> k' -> dict_get_or (<[k := v]> d) k' dflt = dict_get_or d k' dflt.
Proof. intros. unfold dict_get_or. by rewrite lookup_insert_ne. Qed.

Lemma in_strs_action v :
  in_strs v ["update"; "delete"] = true
  <-> v = PStr "update" \/ v = PStr "delete".
Proof.
  unfold in_strs, eq_str; cbn.
  destruct v; cbn; try (split; [done | intros [?|?]; done]).
  destruct (String.eqb_spec s "update") as [->|Hu]; cbn; [naive_solver|].
  destruct (String.eqb_spec s "delete") as [->|Hd]; cbn; [naive_solver|].
  split; [done|]. intros [[=]|[=]]; congruence.
Qed.

Lemma bad_limit_spec v : MemoryTools.bad_limit v = false <-> limit_in_range v.
Proof.
  unfold MemoryTools.bad_limit, limit_in_range.
  destruct (isinstance_int v); cbn; [|split; [done | intros [? _]; done]].
  destruct (Z.ltb_spec (int_value v) 1), (Z.gtb_spec (int_value v) 50); cbn;
    split; try done; try lia; intros [_ ?]; lia.
Qed.

Lemma limit_passes d :
  ~ supplied_limit_bad d ->
  MemoryTools.bad_limit (dict_get_or d "limit" (PInt 10)) = false.
Proof.
  intros Hn. unfold dict_get_or.
  destruct (d !! "limit") as [v|] eqn:E; cbn; [|done].
  destruct (MemoryTools.bad_limit v) eqn:B; [|done].
  exfalso. apply Hn. exists v. split; [done|].
  rewrite <- bad_limit_spec. congruence.
Qed.

Lemma bad_limit_int z :
  MemoryTools.bad_limit (PInt z) = false <-> 1 <= z <= 50.
Proof. rewrite bad_limit_spec. unfold limit_in_range. cbn. tauto. Qed.

(** A limit that is absent or an integer from 1 to 50 passes the check. *)
Lemma limit_accepted d :
  ~ limit_refused d ->
  MemoryTools.bad_limit (dict_get_or d "limit" (PInt 10)) = false.
Proof.
  intros Hn. unfold dict_get_or.
  destruct (d !! "limit") as [v|] eqn:E; cbn; [|done].
  destruct (MemoryTools.bad_limit v) eqn:B; [|done].
  exfalso. apply Hn. exists v. split; [done|].
  intros (z & -> & Hz). apply bad_limit_int in Hz. congruence.
Qed.

(** A supplied limit that is neither a boolean nor an integer from 1 to
    50 fails it. *)
Lemma limit_refused_fails d :
  ~ boolean_limit d -> limit_refused d ->
  MemoryTools.bad_limit (dict_get_or d "limit" (PInt 10)) = true.
Proof.
  intros Hb (v & E & Hv). unfold dict_get_or. rewrite E; cbn.
  destruct v as [|b|z| | | |]; try done.
  - destruct Hb. by exists b.
  - destruct (MemoryTools.bad_limit (PInt z)) eqn:B; [done|].
    destruct Hv. exists z. split; [done|]. by apply bad_limit_int.
Qed.
End Lookups.

(** What each adapter method does, by the state of the session. *)
Section AdapterRuns.
Context {FL : FloatOps}.
(** The adapter with the [MemuLogger] its signatures declare. *)
#[local] Existing Instance MemuLogger.
Implicit Types (w : World).

Ltac run_adapter w :=
  unfold placeholder_events, api_log, elapsed, reading;
  autounfold with run; cbn;
  destruct (_client (self w)); cbn; [|reflexivity];
  destruct (_logger (self w)); reflexivity.

Lemma retrieve_memory_run query user_id limit w :
  MemuClientWrapper.retrieve_memory query user_id limit w =
  let c := call_retrieve_memory query user_id limit in
  match _client (self w) with
  | None => (Raised MemuClientWrapper.ClientNotInitialized, w, [EvAdapter c])
  | Some _ =>
      (Ok (MemuClientWrapper.retrieve_result query user_id (elapsed w)),
       tick (tick w),
       placeholder_events w c "retrieve_memory" (float_lit 1 1))
  end.
Proof. unfold MemuClientWrapper.retrieve_memory. run_adapter w. Qed.

Lemma search_memory_run search_query user_id filters limit w :
  MemuClientWrapper.search_memory search_query user_id filters limit w =
  let c := call_search_memory search_query user_id filters limit in
  match _client (self w) with
  | None => (Raised MemuClientWrapper.ClientNotInitialized, w, [EvAdapter c])
  | Some _ =>
      (Ok (MemuClientWrapper.search_result
             search_query user_id filters (elapsed w)),
       tick (tick w),
       placeholder_events w c "search_memory" (float_lit 1 1))
  end.
Proof. unfold MemuClientWrapper.search_memory. run_adapter w. Qed.

Lemma update_memory_run memory_id new_content user_id w :
  MemuClientWrapper.update_memory memory_id new_content user_id w =
  let c := call_update_memory memory_id new_content user_id in
  match _client (self w) with
  | None => (Raised MemuClientWrapper.ClientNotInitialized, w, [EvAdapter c])
  | Some _ =>
      (Ok (MemuClientWrapper.update_result memory_id new_content (elapsed w)),
       tick (tick w),
       placeholder_events w c "update_memory" (float_lit 5 2))
  end.
Proof. unfold MemuClientWrapper.update_memory. run_adapter w. Qed.

Lemma delete_memory_run memory_id user_id w :
  MemuClientWrapper.delete_memory memory_id user_id w =
  let c := call_delete_memory memory_id user_id in
  match _client (self w) with
  | None => (Raised MemuClientWrapper.ClientNotInitialized, w, [EvAdapter c])
  | Some _ =>
      (Ok (MemuClientWrapper.delete_result memory_id (elapsed w)),
       tick (tick w),
       placeholder_events w c "delete_memory" (float_lit 5 2))
  end.
Proof. unfold MemuClientWrapper.delete_memory. run_adapter w. Qed.

Lemma get_memory_stats_run user_id include_details w :
  MemuClientWrapper.get_memory_stats user_id include_details w =
  let c := call_get_memory_stats user_id include_details in
  match _client (self w) with
  | None => (Raised MemuClientWrapper.ClientNotInitialized, w, [EvAdapter c])
  | Some _ =>
      (Ok (MemuClientWrapper.stats_result user_id include_details (elapsed w)),
       tick (tick w),
       placeholder_events w c "get_memory_stats" (float_lit 1 1))
  end.
Proof. unfold MemuClientWrapper.get_memory_stats. run_adapter w. Qed.

(** [memorize_conversation] on a text: the SDK call sits between the two
    readings of the clock that time it. *)
Lemma memorize_conversation_run s user_id user_name agent_id agent_name w :
  MemuClientWrapper.memorize_conversation
    (PStr s) user_id user_name agent_id agent_name w =
  let c := call_memorize_conversation
             (PStr s) user_id user_name agent_id agent_name in
  match _client (self w) with
  | None => (Raised MemuClientWrapper.ClientNotInitialized, w, [EvAdapter c])
  | Some client =>
      let timed :=
        [EvAdapter c; EvClock (reading w 0);
         EvSdkMemorize client (PStr s) user_id user_name agent_id agent_name;
         EvClock (reading w 1)] in
      match sdk_memorize (outside w) (sdk_memorizes w) with
      | Ok result =>
          (Ok (MemuClientWrapper.memorize_result
                 result (Z.of_nat (length (split s))) (elapsed w)),
           tick (called (tick w)),
           (timed ++ api_log w "memorize_conversation" (elapsed w) true)%list)
      | Raised e =>
          (Raised (Exception RuntimeError
                     ("Failed to memorize conversation: " ++ exc_str e)),
           tick (called (tick w)),
           (timed ++ api_log w "memorize_conversation" (elapsed w) false)%list)
      end
  end.
Proof.
  unfold MemuClientWrapper.memorize_conversation,
    MemuClientWrapper.split_count, MemuClient_memorize_conversation,
    api_log, elapsed, reading.
  autounfold with run; cbn.
  destruct (_client (self w)); cbn; [|reflexivity].
  destruct (sdk_memorize (outside w) (sdk_memorizes w)); cbn;
    destruct (_logger (self w)); reflexivity.
Qed.

(** Whatever the session, an adapter method is entered once and does not
    answer with a [ValueError]. *)
Lemma placeholder_calls w c method delay :
  adapter_calls (placeholder_events w c method delay) = [c].
Proof. unfold placeholder_events, api_log. by destruct (_logger (self w)). Qed.
End AdapterRuns.

(** ** Validation *)

Section Validation.
Context {FL : FloatOps}.
(** The handlers hold the [MemuLogger] that [MemoryTools.__init__]
    declares. *)
#[local] Existing Instance MemuLogger.
Implicit Types (arguments : gmap string PyVal) (w : World).

(** Split on the state of the session once the adapter has been reached. *)
Ltac by_session w :=
  destruct (_client (self w)) eqn:?; cbn;
  try done; try apply placeholder_calls.

(** C1 (amended): a call without its required parameter is refused with
    "<name> is required" by [memorize_conversation], [retrieve_memory] and
    [search_memory]; [manage_memory] called without [action] is refused
    by the enumeration rule, with "action must be 'update' or 'delete'";
    none of these calls enters a backend adapter method.
    [get_memory_stats] has no required parameter: called without
    [include_details] it goes on to the adapter. *)
Theorem missing_required_parameter arguments w :
  (arguments !! "conversation" = None ->
     rejected_as_required MemoryTools.memorize_conversation
       "conversation" arguments w)
  /\ (arguments !! "query" = None ->
     rejected_as_required MemoryTools.retrieve_memory "query" arguments w)
  /\ (arguments !! "search_query" = None ->
     rejected_as_required MemoryTools.search_memory
       "search_query" arguments w)
  /\ (arguments !! "action" = None ->
     rejected_with (MemoryTools.manage_memory arguments) w
       "action must be 'update' or 'delete'")
  /\ (arguments !! "include_details" = None ->
     adapter_calls (events (MemoryTools.get_memory_stats arguments) w)
     = [call_get_memory_stats
          (dict_get_or arguments "user_id" (PStr "default_user"))
          (PBool false)]).
Proof.
  split; [|split; [|split; [|split]]]; intros H.
  1-4: enter; rewrite (dict_get_None _ _ H); by run_handler.
  enter. rewrite (dict_get_or_None _ _ _ H). run_handler.
  rewrite get_memory_stats_run. by_session w.
Qed.

(** C7: an action that is present but is neither "update" nor "delete" is
    refused with "action must be 'update' or 'delete'", whatever the other
    fields hold, and no backend method is invoked. *)
Theorem manage_memory_rejects_unknown_action arguments w (action : PyVal) :
  arguments !! "action" = Some action ->
  action <> PStr "update" -> action <> PStr "delete" ->
  rejected_with (MemoryTools.manage_memory arguments) w
    "action must be 'update' or 'delete'".
Proof.
  intros Ha Hu Hd.
  assert (Hin : in_strs (dict_get arguments "action") ["update"; "delete"] = false).
  { rewrite (dict_get_Some _ _ _ Ha).
    destruct (in_strs action _) eqn:E; [|done].
    apply in_strs_action in E as [?|?]; congruence. }
  enter. rewrite Hin. by run_handler.
Qed.

(** C9: a required string parameter that is present but empty is refused
    exactly as when it is absent, with the same message and without a
    backend call: [conversation], [query], [search_query], [memory_id]
    (the action being valid) and [new_content] under [action="update"].
    Whatever the action, a call with an empty [memory_id] has the outcome
    of the call without [memory_id]. *)
Theorem empty_string_is_absent arguments w :
  (arguments !! "conversation" = Some (PStr "") ->
     rejected_as_required MemoryTools.memorize_conversation
       "conversation" arguments w
     /\ rejected_as_required MemoryTools.memorize_conversation
          "conversation" (delete "conversation" arguments) w)
  /\ (arguments !! "query" = Some (PStr "") ->
     rejected_as_required MemoryTools.retrieve_memory "query" arguments w
     /\ rejected_as_required MemoryTools.retrieve_memory
          "query" (delete "query" arguments) w)
  /\ (arguments !! "search_query" = Some (PStr "") ->
     rejected_as_required MemoryTools.search_memory
       "search_query" arguments w
     /\ rejected_as_required MemoryTools.search_memory
          "search_query" (delete "search_query" arguments) w)
  /\ (in_strs (dict_get arguments "action") ["update"; "delete"] = true ->
      arguments !! "memory_id" = Some (PStr "") ->
     rejected_as_required MemoryTools.manage_memory "memory_id" arguments w
     /\ rejected_as_required MemoryTools.manage_memory
          "memory_id" (delete "memory_id" arguments) w)
  /\ (dict_get arguments "action" = PStr "update" ->
      truthy (dict_get arguments "memory_id") = true ->
      arguments !! "new_content" = Some (PStr "") ->
     rejected_with (MemoryTools.manage_memory arguments) w
       "new_content is required for update action"
     /\ rejected_with
          (MemoryTools.manage_memory (delete "new_content" arguments)) w
          "new_content is required for update action")
  /\ (arguments !! "memory_id" = Some (PStr "") ->
     outcome (MemoryTools.manage_memory arguments) w
     = outcome (MemoryTools.manage_memory (delete "memory_id" arguments)) w).
Proof.
  split; [|split; [|split; [|split; [|split]]]].
  1-3: intros H; split; enter;
       rewrite ?dict_get_delete, ?(dict_get_Some _ _ _ H); by run_handler.
  - intros Ha H. split; enter.
    + rewrite Ha, (dict_get_Some _ _ _ H). by run_handler.
    + rewrite dict_get_delete, dict_get_delete_ne, Ha by done. by run_handler.
  - intros Ha Hm H. split; enter.
    + rewrite Ha, Hm, (dict_get_Some _ _ _ H). by run_handler.
    + rewrite dict_get_delete, !dict_get_delete_ne, Ha, Hm by done.
      by run_handler.
  - intros H. enter.
    rewrite dict_get_delete, dict_get_delete_ne, (dict_get_Some _ _ _ H) by done.
    destruct (in_strs (dict_get arguments "action") _); by run_handler.
Qed.

(** C2: without [new_content], a [manage_memory] call with
    [action="update"] is refused with "new_content is required for update
    action" and enters no backend method, while the same call with
    [action="delete"] enters the adapter's [delete_memory] and, the session
    being live, succeeds.  The requirement on [new_content] comes after
    the unconditional checks: when [memory_id] is missing, both calls are
    refused with "memory_id is required". *)
Theorem manage_memory_new_content_rule arguments w :
  arguments !! "new_content" = None ->
  let update_call := <["action" := PStr "update"]> arguments in
  let delete_call := <["action" := PStr "delete"]> arguments in
  let memory_id := dict_get arguments "memory_id" in
  let user_id := dict_get_or arguments "user_id" (PStr "default_user") in
  (truthy memory_id = true ->
     rejected_with (MemoryTools.manage_memory update_call) w
       "new_content is required for update action"
     /\ adapter_calls (events (MemoryTools.manage_memory delete_call) w)
        = [call_delete_memory memory_id user_id]
     /\ (is_Some (_client (self w)) ->
         outcome (MemoryTools.manage_memory delete_call) w
         = Ok (MemuClientWrapper.delete_result memory_id (elapsed w))))
  /\ (truthy memory_id = false ->
     rejected_with (MemoryTools.manage_memory update_call) w
       "memory_id is required"
     /\ rejected_with (MemoryTools.manage_memory delete_call) w
          "memory_id is required").
Proof.
  intros Hnew. cbv zeta.
  pose proof (dict_get_None _ _ Hnew) as Hn.
  split; intros Hid.
  - split; [|split].
    + enter. rewrite dict_get_insert, !dict_get_insert_ne by done.
      rewrite Hid, Hn. by run_handler.
    + enter. rewrite dict_get_insert, !dict_get_insert_ne,
        dict_get_or_insert_ne by done.
      rewrite Hid. run_handler.
      rewrite delete_memory_run. by_session w.
    + intros [c Hc]. enter.
      rewrite dict_get_insert, !dict_get_insert_ne,
        dict_get_or_insert_ne by done.
      rewrite Hid. run_handler.
      by rewrite delete_memory_run, Hc.
  - split; enter;
      rewrite dict_get_insert, !dict_get_insert_ne by done;
      rewrite Hid; by run_handler.
Qed.

(** C3 (amended): once the query is there, the limit decides.  For a call
    whose limit, if supplied, is not a boolean and whose [query]
    ([search_query]) is truthy: a supplied limit that is not an integer,
    or is an integer outside 1..50, is refused with exactly "limit must be
    an integer between 1 and 50" and without a backend call; in all other
    cases (limit absent, hence 10, or an integer from 1 to 50)
    [retrieve_memory] does not fail validation and hands the call to the
    adapter with that limit, and so does [search_memory] when its filters
    are falsy or a dict. *)
Theorem limit_rule arguments w :
  ~ boolean_limit arguments ->
  (truthy (dict_get arguments "query") = true ->
     (limit_refused arguments ->
        rejected_with (MemoryTools.retrieve_memory arguments) w
          MemoryTools.limit_message)
     /\ (~ limit_refused arguments ->
        ~ fails_validation
            (outcome (MemoryTools.retrieve_memory arguments) w)
        /\ adapter_calls (events (MemoryTools.retrieve_memory arguments) w)
           = [call_retrieve_memory
                (dict_get arguments "query")
                (dict_get_or arguments "user_id" (PStr "default_user"))
                (dict_get_or arguments "limit" (PInt 10))]))
  /\ (truthy (dict_get arguments "search_query") = true ->
     (limit_refused arguments ->
        rejected_with (MemoryTools.search_memory arguments) w
          MemoryTools.limit_message)
     /\ (~ limit_refused arguments ->
        filters_pass (dict_get_or arguments "filters" (PDict ∅)) ->
        ~ fails_validation
            (outcome (MemoryTools.search_memory arguments) w)
        /\ adapter_calls (events (MemoryTools.search_memory arguments) w)
           = [call_search_memory
                (dict_get arguments "search_query")
                (dict_get_or arguments "user_id" (PStr "default_user"))
                (dict_get_or arguments "filters" (PDict ∅))
                (dict_get_or arguments "limit" (PInt 10))])).
Proof.
  intros Hnb. split; intros Hq; split.
  - intros Hbad%limit_refused_fails; [|done].
    enter. rewrite Hq, Hbad. by run_handler.
  - intros Hok%limit_accepted. split.
    + intros [msg Hmsg]. revert Hmsg. enter. rewrite Hq, Hok. run_handler.
      rewrite retrieve_memory_run. by by_session w.
    + enter. rewrite Hq, Hok. run_handler.
      rewrite retrieve_memory_run. by_session w.
  - intros Hbad%limit_refused_fails; [|done].
    enter. rewrite Hq, Hbad. by run_handler.
  - intros Hok%limit_accepted Hf. unfold filters_pass in Hf. split.
    + intros [msg Hmsg]. revert Hmsg. enter. rewrite Hq, Hok, Hf. run_handler.
      rewrite search_memory_run. by by_session w.
    + enter. rewrite Hq, Hok, Hf. run_handler.
      rewrite search_memory_run. by_session w.
Qed.

(** C4: a conversation of more than 100,000 characters is refused with
    "Conversation too long (max 100,000 characters)", a "too long" error,
    before the backend is entered; one of exactly 100,000 characters
    passes the length check and the adapter's [memorize_conversation] is
    entered, with the SDK call made when the session is live. *)
Theorem conversation_length_limit arguments w (s : string) :
  arguments !! "conversation" = Some (PStr s) ->
  let call :=
    call_memorize_conversation (PStr s)
      (dict_get_or arguments "user_id" (PStr "default_user"))
      (dict_get_or arguments "user_name" (PStr "User"))
      (dict_get_or arguments "agent_id" (PStr "default_agent"))
      (dict_get_or arguments "agent_name" (PStr "Assistant")) in
  (100000 < Z.of_nat (String.length s) ->
     rejected_with (MemoryTools.memorize_conversation arguments) w
       "Conversation too long (max 100,000 characters)"
     /\ index 0 "too long" "Conversation too long (max 100,000 characters)"
        = Some 13%nat)
  /\ (Z.of_nat (String.length s) = 100000 ->
     ~ fails_validation
         (outcome (MemoryTools.memorize_conversation arguments) w)
     /\ adapter_calls (events (MemoryTools.memorize_conversation arguments) w)
        = [call]
     /\ forall client, _client (self w) = Some client ->
          EvSdkMemorize client (PStr s)
            (dict_get_or arguments "user_id" (PStr "default_user"))
            (dict_get_or arguments "user_name" (PStr "User"))
            (dict_get_or arguments "agent_id" (PStr "default_agent"))
            (dict_get_or arguments "agent_name" (PStr "Assistant"))
          ∈ events (MemoryTools.memorize_conversation arguments) w).
Proof.
  intros Hc call.
  assert (Hne : 0 < Z.of_nat (String.length s) -> truthy (PStr s) = true).
  { intros Hpos. destruct s; [cbn in Hpos; lia | done]. }
  split; intros Hlen.
  - split; [|done]. enter. rewrite (dict_get_Some _ _ _ Hc).
    rewrite Hne by lia. run_handler.
    destruct (Z.gtb_spec (Z.of_nat (String.length s)) 100000); [done | lia].
  - assert (Hgt : (Z.of_nat (String.length s) >? 100000) = false).
    { rewrite Hlen. done. }
    split; [|split].
    + intros [msg Hmsg]. revert Hmsg. enter.
      rewrite (dict_get_Some _ _ _ Hc), Hne by lia. run_handler.
      rewrite Hgt. cbn. rewrite memorize_conversation_run.
      destruct (_client (self w)); cbn; [|done].
      by destruct (sdk_memorize _ _).
    + enter.
      rewrite (dict_get_Some _ _ _ Hc), Hne by lia. run_handler.
      rewrite Hgt. cbn. rewrite memorize_conversation_run.
      destruct (_client (self w)); cbn; [|done].
      unfold api_log.
      by destruct (sdk_memorize _ _), (_logger (self w)).
    + intros client Hcl. enter.
      rewrite (dict_get_Some _ _ _ Hc), Hne by lia. run_handler.
      rewrite Hgt. cbn. rewrite memorize_conversation_run, Hcl.
      destruct (sdk_memorize _ _); cbn; set_solver.
Qed.
End Validation.

(** ** The result of memorizing *)

Section Memorize.
Context {FL : FloatOps}.
(** Handler and adapter with a [MemuLogger]. *)
#[local] Existing Instance MemuLogger.
Implicit Types (arguments : gmap string PyVal) (w : World).

(** [split] yields one string per word: counting the strings is counting
    the starts of words. *)
Lemma split_from_count s : forall cur,
  Z.of_nat (length (split_from cur s))
  = count_words (String.eqb cur "") s + (if String.eqb cur "" then 0 else 1).
Proof.
  induction s as [|c s IH]; intros cur.
  - destruct cur; reflexivity.
  - cbn [split_from count_words]. destruct (isspace c).
    + destruct cur; cbn [String.eqb length];
        rewrite ?Nat2Z.inj_succ, IH; cbn; lia.
    + rewrite IH. destruct cur; cbn; lia.
Qed.

Lemma split_word_count s : Z.of_nat (length (split s)) = word_count s.
Proof. unfold split, word_count. rewrite split_from_count. cbn. lia. Qed.

Lemma memorize_result_lookup result tokens response_time :
  let r := MemuClientWrapper.memorize_result result tokens response_time in
  r !! "success" = Some (PBool true)
  /\ r !! "tokens_processed" = Some (PInt tokens)
  /\ r !! "processing_time" = Some (PFloat (fround response_time 3)).
Proof.
  unfold MemuClientWrapper.memorize_result, dict_of; cbn.
  repeat split; by simplify_map_eq.
Qed.

(** C8: a valid [memorize_conversation] call that the backend completes
    returns a mapping with [tokens_processed] the number of
    whitespace-delimited words of the conversation, [success] true, and
    [processing_time] the rounded time between the two readings of the
    clock that enclose the SDK call. *)
Theorem memorize_result_contents arguments w (s : string)
    (client : MemuClient) (id : option PyVal) :
  arguments !! "conversation" = Some (PStr s) ->
  0 < Z.of_nat (String.length s) <= 100000 ->
  _client (self w) = Some client ->
  sdk_memorize (outside w) (sdk_memorizes w) = Ok id ->
  exists result,
    outcome (MemoryTools.memorize_conversation arguments) w = Ok result
    /\ result !! "tokens_processed" = Some (PInt (word_count s))
    /\ result !! "success" = Some (PBool true)
    /\ result !! "processing_time"
       = Some (PFloat (fround (fsub (reading w 1) (reading w 0)) 3))
    /\ exists before after,
         events (MemoryTools.memorize_conversation arguments) w
         = (before
            ++ [EvClock (reading w 0);
                EvSdkMemorize client (PStr s)
                  (dict_get_or arguments "user_id" (PStr "default_user"))
                  (dict_get_or arguments "user_name" (PStr "User"))
                  (dict_get_or arguments "agent_id" (PStr "default_agent"))
                  (dict_get_or arguments "agent_name" (PStr "Assistant"));
                EvClock (reading w 1)]
            ++ after)%list.
Proof.
  intros Hc [Hpos Hlen] Hcl Hsdk.
  assert (Ht : truthy (PStr s) = true).
  { destruct s; [cbn in Hpos; lia | done]. }
  assert (Hgt : (Z.of_nat (String.length s) >? 100000) = false).
  { destruct (Z.gtb_spec (Z.of_nat (String.length s)) 100000); [lia | done]. }
  destruct (memorize_result_lookup id (word_count s) (elapsed w))
    as (Hsuccess & Htokens & Htime).
  exists (MemuClientWrapper.memorize_result id (word_count s) (elapsed w)).
  enter. rewrite (dict_get_Some _ _ _ Hc), Ht. run_handler.
  rewrite Hgt. cbn. rewrite memorize_conversation_run, Hcl, Hsdk. cbn.
  rewrite split_word_count. repeat split; try done.
  eexists [_; _], _. reflexivity.
Qed.
End Memorize.

(** ** The session: connecting, the guard, closing *)

Section Session.
Context {FL : FloatOps}.
(** The wrapper with no logger or with a [MemuLogger]. *)
#[local] Existing Instance MemuLogger.
Implicit Types (w : World) (l : list Z).

Abbreviation new_client w :=
  (EvSdkNew (memu_base_url (config (self w))) (memu_api_key (config (self w)))).

(** One attempt: the construction decides. *)
Lemma connect_once_run w :
  MemuClientWrapper.connect_once w =
  match sdk_new (outside w) (sdk_news w) with
  | Ok c => (Ok tt, session_opened c w, connect_events w)
  | Raised e => (Raised e, constructed w, [new_client w])
  end.
Proof.
  unfold MemuClientWrapper.connect_once, MemuClientWrapper._test_connection,
    MemuClient_new, connect_events, api_log, elapsed, reading.
  autounfold with run; cbn.
  destruct (sdk_new (outside w) (sdk_news w)); cbn; [|reflexivity].
  destruct (_logger (self w)); reflexivity.
Qed.

(** [2 ** attempt] has a float up to attempt 1023. *)
Lemma float_overflows_pow2 a :
  0 <= a -> float_overflows (2 ^ a) = (1024 <=? a).
Proof.
  intros Ha. unfold float_overflows.
  rewrite Z.abs_eq by (apply Z.pow_nonneg; lia).
  assert (H970 : 0 < 2 ^ 970 < 2 ^ 1023).
  { split; [apply Z.pow_pos_nonneg | apply Z.pow_lt_mono_r]; lia. }
  assert (H1024 : 2 ^ 1024 = 2 * 2 ^ 1023).
  { change 1024 with (Z.succ 1023). rewrite Z.pow_succ_r; lia. }
  destruct (Z.leb_spec 1024 a) as [H|H].
  - apply Z.leb_le.
    assert (2 ^ 1024 <= 2 ^ a) by (apply Z.pow_le_mono_r; lia). lia.
  - apply Z.leb_gt.
    assert (2 ^ a <= 2 ^ 1023) by (apply Z.pow_le_mono_r; lia). lia.
Qed.

(** One iteration of the loop of [initialize]. *)
Lemma initialize_loop_step attempt l w :
  MemuClientWrapper.initialize_loop (attempt :: l) w =
  match sdk_new (outside w) (sdk_news w) with
  | Ok c => (Ok tt, session_opened c w, connect_events w)
  | Raised e =>
      if attempt <? _max_retries (self w) then
        if float_overflows (2 ^ attempt) then
          (Raised int_too_large, constructed w, [new_client w])
        else
          match MemuClientWrapper.initialize_loop l (constructed w) with
          | (r, w', t) =>
              (r, w',
               new_client w
               :: EvSleep (fmul (_base_delay (self w))
                             (float_of_int (2 ^ attempt)))
               :: t)
          end
      else
        (Raised (MemuClientWrapper.initialize_failed (_max_retries (self w)) e),
         constructed w, [new_client w])
  end.
Proof.
  cbn [MemuClientWrapper.initialize_loop]. unfold try_except.
  rewrite connect_once_run.
  destruct (sdk_new (outside w) (sdk_news w)); [reflexivity|].
  unfold fmul_int. autounfold with run; cbn.
  destruct (attempt <? _max_retries (self w)); [|reflexivity].
  destruct (float_overflows (2 ^ attempt)); [reflexivity|]. cbn.
  by destruct (MemuClientWrapper.initialize_loop l (constructed w)) as [[??]?].
Qed.




Lemma initialize_run w :
  MemuClientWrapper.initialize w =
  MemuClientWrapper.initialize_loop
    (MemuClientWrapper.range (_max_retries (self w) + 1)) w.
Proof.
  unfold MemuClientWrapper.initialize. autounfold with run; cbn.
  by destruct (MemuClientWrapper.initialize_loop _ w) as [[??]?].
Qed.

Lemma range_succ m :
  0 <= m ->
  MemuClientWrapper.range (m + 1) = map Z.of_nat (seq 0 (S (Z.to_nat m))).
Proof.
  intros Hm. unfold MemuClientWrapper.range.
  by rewrite Z2Nat.inj_add, Nat.add_1_r by lia.
Qed.

Lemma attempts_connect_events w : attempts (connect_events w) = 1%nat.
Proof. unfold connect_events, api_log. by destruct (_logger (self w)). Qed.



(** A loop that gives up leaves an absent handle absent. *)
Lemma initialize_loop_absent l : forall w,
  _client (self w) = None ->
  is_raised (outcome (MemuClientWrapper.initialize_loop l) w) ->
  _client (self (world_after (MemuClientWrapper.initialize_loop l) w)) = None.
Proof.
  unfold outcome, world_after.
  induction l as [|attempt l IH]; intros w Hnone; [done|].
  rewrite initialize_loop_step.
  destruct (sdk_new (outside w) (sdk_news w)); cbn.
  - by intros [e He].
  - destruct (attempt <? _max_retries (self w)); [|done].
    destruct (float_overflows (2 ^ attempt)); [done|].
    specialize (IH (constructed w) Hnone).
    by destruct (MemuClientWrapper.initialize_loop l (constructed w)) as [[??]?].
Qed.


(** C10: with the session handle absent, every adapter method raises
    "Client not initialized": it changes nothing and does nothing beyond
    being entered.  The handle is absent in a new wrapper, stays absent
    when [initialize] gives up, and is absent after [close], which never
    raises and can be repeated. *)
Theorem client_not_initialized_guard w :
  let guard := Exception RuntimeError "Client not initialized" in
  (_client (self w) = None ->
     (forall conversation user_id user_name agent_id agent_name,
        MemuClientWrapper.memorize_conversation
          conversation user_id user_name agent_id agent_name w
        = (Raised guard, w,
           [EvAdapter (call_memorize_conversation
                         conversation user_id user_name agent_id agent_name)]))
     /\ (forall query user_id limit,
        MemuClientWrapper.retrieve_memory query user_id limit w
        = (Raised guard, w,
           [EvAdapter (call_retrieve_memory query user_id limit)]))
     /\ (forall search_query user_id filters limit,
        MemuClientWrapper.search_memory search_query user_id filters limit w
        = (Raised guard, w,
           [EvAdapter (call_search_memory search_query user_id filters limit)]))
     /\ (forall memory_id new_content user_id,
        MemuClientWrapper.update_memory memory_id new_content user_id w
        = (Raised guard, w,
           [EvAdapter (call_update_memory memory_id new_content user_id)]))
     /\ (forall memory_id user_id,
        MemuClientWrapper.delete_memory memory_id user_id w
        = (Raised guard, w,
           [EvAdapter (call_delete_memory memory_id user_id)]))
     /\ (forall user_id include_details,
        MemuClientWrapper.get_memory_stats user_id include_details w
        = (Raised guard, w,
           [EvAdapter (call_get_memory_stats user_id include_details)])))
  /\ (forall cfg max_retries base_delay,
       _client (MemuClientWrapper.__init__ cfg max_retries base_delay) = None)
  /\ (_client (self w) = None ->
      is_raised (outcome MemuClientWrapper.initialize w) ->
      _client (self (world_after MemuClientWrapper.initialize w)) = None)
  /\ (outcome MemuClientWrapper.close w = Ok tt
      /\ events MemuClientWrapper.close w = []
      /\ _client (self (world_after MemuClientWrapper.close w)) = None
      /\ world_after MemuClientWrapper.close
           (world_after MemuClientWrapper.close w)
         = world_after MemuClientWrapper.close w).
Proof.
  intros guard. split; [|split; [|split]].
  - intros Hnone. repeat split; intros.
    + unfold MemuClientWrapper.memorize_conversation.
      autounfold with run; cbn. by rewrite Hnone.
    + by rewrite retrieve_memory_run, Hnone.
    + by rewrite search_memory_run, Hnone.
    + by rewrite update_memory_run, Hnone.
    + by rewrite delete_memory_run, Hnone.
    + by rewrite get_memory_stats_run, Hnone.
  - done.
  - intros Hnone. unfold outcome, world_after. rewrite initialize_run.
    by apply initialize_loop_absent.
  - unfold outcome, events, world_after, MemuClientWrapper.close.
    autounfold with run; cbn.
    destruct (_client (self w)) eqn:E; cbn; [done|].
    by rewrite E.
Qed.
End Session.

(** ** The dispatcher *)

Section Dispatcher.
Context {FL : FloatOps} {logger : Logger}.
Implicit Types (arguments : gmap string PyVal) (w : World).

(** [call_tool] answers every call with an envelope. *)
Lemma call_tool_returns name arguments w :
  exists r, outcome (Server.call_tool name arguments) w = Ok r.
Proof.
  unfold outcome, Server.call_tool, try_except.
  match goal with |- context [bind ?m ?k w] => destruct (bind m k w) as [[[r|e] w1] t1] end;
    cbn; [by eexists|].
  destruct (exc_class e); by eexists.
Qed.

(** C6: a call of an operation that is not one of the five registered
    ones is answered with an envelope flagged as an error that names the
    unknown operation; no handler and no backend method runs (the call
    leaves no event and does not change the world); and since [call_tool]
    returns an envelope for every call, never an exception, the call that
    follows the failure is answered as well. *)
Theorem unknown_operation name arguments w :
  name ∉ Server.tool_names ->
  Server.call_tool name arguments w
  = (Ok {| Server.content := [Server.TextLit ("Error: Unknown tool: " ++ name)];
           Server.isError := true |},
     w, [])
  /\ (forall name' arguments' w',
        exists r, outcome (Server.call_tool name' arguments') w' = Ok r)
  /\ (forall name' arguments',
        exists r,
          outcome (Server.call_tool name' arguments')
            (world_after (Server.call_tool name arguments) w) = Ok r).
Proof.
  intros Hname. split; [|split]; [|intros; apply call_tool_returns..].
  unfold Server.tool_names in Hname.
  repeat (apply not_elem_of_cons in Hname as [? Hname]).
  unfold Server.call_tool.
  repeat match goal with
         | H : name <> ?s |- _ =>
             apply String.eqb_neq in H; rewrite H; clear H
         end.
  reflexivity.
Qed.
End Dispatcher.

(** ** The theorems at work on concrete calls *)

Section Instances.
#[local] Existing Instance exact_floats.
#[local] Existing Instance MemuLogger.

(** C1, witness: the four refusals on a call without arguments, and
    [get_memory_stats] going through. *)
Lemma missing_required_parameter_witness :
  rejected_as_required MemoryTools.memorize_conversation
    "conversation" Demo.no_arguments Demo.connected
  /\ rejected_as_required MemoryTools.retrieve_memory
       "query" Demo.no_arguments Demo.connected
  /\ rejected_as_required MemoryTools.search_memory
       "search_query" Demo.no_arguments Demo.connected
  /\ rejected_with (MemoryTools.manage_memory Demo.no_arguments)
       Demo.connected "action must be 'update' or 'delete'"
  /\ adapter_calls
       (events (MemoryTools.get_memory_stats Demo.no_arguments)
          Demo.connected)
     = [call_get_memory_stats (PStr "default_user") (PBool false)].
Proof.
  destruct (missing_required_parameter Demo.no_arguments Demo.connected)
    as (H1 & H2 & H3 & H4 & H5).
  split; [apply H1; reflexivity|].
  split; [apply H2; reflexivity|].
  split; [apply H3; reflexivity|].
  split; [apply H4; reflexivity|].
  apply H5; reflexivity.
Defined.

(** C1, counterexample: [manage_memory] without arguments is refused,
    but not with "action is required"; [get_memory_stats] without
    arguments is not refused at all. *)
Lemma missing_required_parameter_counterexample :
  outcome (MemoryTools.manage_memory Demo.no_arguments) Demo.connected
  = Raised (Exception ValueError "action must be 'update' or 'delete'")
  /\ ~ rejected_as_required MemoryTools.manage_memory
         "action" Demo.no_arguments Demo.connected
  /\ ~ fails_validation
         (outcome (MemoryTools.get_memory_stats Demo.no_arguments)
            Demo.connected).
Proof.
  split; [reflexivity|]. split.
  - intros [H _]. discriminate H.
  - intros [msg H]. revert H. enter.
    rewrite !dict_get_or_None by reflexivity. run_handler.
    by rewrite get_memory_stats_run.
Qed.

(** C2, witness: a call with and a call without [memory_id]. *)
Lemma manage_memory_new_content_rule_witness :
  (rejected_with
     (MemoryTools.manage_memory (<["action" := PStr "update"]> Demo.manage_call))
     Demo.connected "new_content is required for update action"
   /\ adapter_calls
        (events
           (MemoryTools.manage_memory
              (<["action" := PStr "delete"]> Demo.manage_call))
           Demo.connected)
      = [call_delete_memory (PStr "mem_001") (PStr "test_user")]
   /\ outcome
        (MemoryTools.manage_memory
           (<["action" := PStr "delete"]> Demo.manage_call))
        Demo.connected
      = Ok (MemuClientWrapper.delete_result (PStr "mem_001")
              (elapsed Demo.connected)))
  /\ rejected_with
       (MemoryTools.manage_memory
          (<["action" := PStr "update"]> Demo.manage_call_without_id))
       Demo.connected "memory_id is required".
Proof.
  split.
  - destruct (manage_memory_new_content_rule Demo.manage_call Demo.connected)
      as [(H1 & H2 & H3) _]; [reflexivity | reflexivity |].
    split; [exact H1|]. split; [exact H2|]. apply H3. by eexists.
  - destruct (manage_memory_new_content_rule
                Demo.manage_call_without_id Demo.connected)
      as [_ [H _]]; [reflexivity | reflexivity | exact H].
Defined.

(** C3, witness: limits 0, 51 and "invalid" are refused, limit 5 and a
    missing limit go to the adapter. *)
Lemma limit_rule_witness :
  rejected_with (MemoryTools.retrieve_memory (Demo.retrieve_call (PInt 0)))
    Demo.connected MemoryTools.limit_message
  /\ rejected_with (MemoryTools.search_memory (Demo.search_call (PInt 51)))
       Demo.connected MemoryTools.limit_message
  /\ rejected_with
       (MemoryTools.retrieve_memory (Demo.retrieve_call (PStr "invalid")))
       Demo.connected MemoryTools.limit_message
  /\ adapter_calls
       (events (MemoryTools.retrieve_memory (Demo.retrieve_call (PInt 5)))
          Demo.connected)
     = [call_retrieve_memory (PStr "test") (PStr "default_user") (PInt 5)]
  /\ adapter_calls
       (events
          (MemoryTools.search_memory (Demo.args [("search_query", PStr "test")]))
          Demo.connected)
     = [call_search_memory (PStr "test") (PStr "default_user")
          (PDict ∅) (PInt 10)].
Proof.
  assert (Hbad : forall (d : gmap string PyVal) v,
            d !! "limit" = Some v -> MemoryTools.bad_limit v = true ->
            limit_refused d).
  { intros d v Hd Hv. exists v. split; [exact Hd|].
    intros (z & -> & Hz%bad_limit_int). congruence. }
  assert (Hnb : forall (d : gmap string PyVal) v,
            d !! "limit" = Some v -> isinstance_bool v = false ->
            ~ boolean_limit d).
  { intros d v Hd Hv [b Hb]. rewrite Hd in Hb. by injection Hb as ->. }
  split; [|split; [|split; [|split]]].
  - destruct (limit_rule (Demo.retrieve_call (PInt 0)) Demo.connected)
      as [[H _] _]; [by apply (Hnb _ (PInt 0)) | reflexivity |].
    apply H. by apply (Hbad _ (PInt 0)).
  - destruct (limit_rule (Demo.search_call (PInt 51)) Demo.connected)
      as [_ [H _]]; [by apply (Hnb _ (PInt 51)) | reflexivity |].
    apply H. by apply (Hbad _ (PInt 51)).
  - destruct (limit_rule (Demo.retrieve_call (PStr "invalid")) Demo.connected)
      as [[H _] _]; [by apply (Hnb _ (PStr "invalid")) | reflexivity |].
    apply H. by apply (Hbad _ (PStr "invalid")).
  - destruct (limit_rule (Demo.retrieve_call (PInt 5)) Demo.connected)
      as [[_ H] _]; [by apply (Hnb _ (PInt 5)) | reflexivity |].
    apply H. intros (v & Hv & Hn). vm_compute in Hv.
    injection Hv as <-. apply Hn. exists 5. split; [reflexivity | lia].
  - destruct (limit_rule (Demo.args [("search_query", PStr "test")])
                Demo.connected) as [_ [_ H]];
      [intros [b Hb]; vm_compute in Hb; discriminate Hb | reflexivity |].
    apply H; [|reflexivity]. intros (v & Hv & _). vm_compute in Hv.
    discriminate Hv.
Defined.

(** C3, counterexample: without a query the call fails validation
    whatever the limit, and the message is about the query; a
    [search_memory] call with a text as filters fails validation with a
    limit in range. *)
Lemma limit_rule_counterexample :
  outcome (MemoryTools.retrieve_memory Demo.no_arguments) Demo.connected
  = Raised (Exception ValueError "query is required")
  /\ ~ limit_alone_decides MemoryTools.retrieve_memory
         Demo.no_arguments Demo.connected
  /\ ~ limit_alone_decides MemoryTools.retrieve_memory
         (Demo.args [("limit", PInt 0)]) Demo.connected
  /\ ~ limit_alone_decides MemoryTools.search_memory
         (Demo.args [("search_query", PStr "test"); ("limit", PInt 5);
                     ("filters", PStr "agent_001")])
         Demo.connected.
Proof.
  split; [reflexivity|]. split; [|split].
  - intros [[H _] _].
    destruct H as (v & Hv & _); [by eexists|].
    vm_compute in Hv. discriminate Hv.
  - intros [_ H]. specialize (H ltac:(by eexists)).
    vm_compute in H. discriminate H.
  - intros [[H _] _].
    destruct H as (v & Hv & Hn); [by eexists|].
    vm_compute in Hv. injection Hv as <-.
    apply Hn. exists 5. split; [reflexivity | lia].
Qed.

Lemma text_of_length_length n :
  String.length (Demo.text_of_length n) = N.to_nat n.
Proof.
  unfold Demo.text_of_length. induction n as [|n IH] using N.peano_ind; [done|].
  rewrite N.iter_succ, N2Nat.inj_succ. cbn. by rewrite IH.
Qed.

Lemma memorize_call_conversation s :
  Demo.memorize_call s !! "conversation" = Some (PStr s).
Proof. unfold Demo.memorize_call, Demo.args, dict_of. by simplify_map_eq. Qed.

(** C4, witness: 100,001 characters are refused, 100,000 are passed to
    the adapter and to the SDK. *)
Lemma conversation_length_limit_witness :
  rejected_with
    (MemoryTools.memorize_conversation
       (Demo.memorize_call (Demo.text_of_length 100001)))
    Demo.connected "Conversation too long (max 100,000 characters)"
  /\ adapter_calls
       (events
          (MemoryTools.memorize_conversation
             (Demo.memorize_call (Demo.text_of_length 100000)))
          Demo.connected)
     = [call_memorize_conversation (PStr (Demo.text_of_length 100000))
          (PStr "test_user") (PStr "User") (PStr "default_agent")
          (PStr "Assistant")]
  /\ EvSdkMemorize 0%nat (PStr (Demo.text_of_length 100000))
       (PStr "test_user") (PStr "User") (PStr "default_agent")
       (PStr "Assistant")
     ∈ events
         (MemoryTools.memorize_conversation
            (Demo.memorize_call (Demo.text_of_length 100000)))
         Demo.connected.
Proof.
  split.
  - destruct (conversation_length_limit
                (Demo.memorize_call (Demo.text_of_length 100001))
                Demo.connected (Demo.text_of_length 100001)
                (memorize_call_conversation _))
      as [H _].
    apply H. rewrite text_of_length_length, N_nat_Z. reflexivity.
  - destruct (conversation_length_limit
                (Demo.memorize_call (Demo.text_of_length 100000))
                Demo.connected (Demo.text_of_length 100000)
                (memorize_call_conversation _))
      as [_ H].
    destruct H as (_ & H2 & H3);
      [rewrite text_of_length_length, N_nat_Z; reflexivity|].
    split; [exact H2 | apply H3; reflexivity].
Defined.


(** C6, witness: a call of an operation nobody registered. *)
Lemma unknown_operation_witness :
  Server.call_tool (logger := MemuMCPServer.setup_logger)
    "forget_everything" Demo.no_arguments Demo.connected
  = (Ok {| Server.content :=
             [Server.TextLit "Error: Unknown tool: forget_everything"];
           Server.isError := true |},
     Demo.connected, []).
Proof.
  apply (unknown_operation (logger := MemuMCPServer.setup_logger)
           "forget_everything" Demo.no_arguments Demo.connected).
  unfold Server.tool_names. rewrite !not_elem_of_cons.
  repeat split; try discriminate. apply not_elem_of_nil.
Defined.

(** C7, witness: [action="bogus"] next to valid other fields. *)
Lemma manage_memory_rejects_unknown_action_witness :
  rejected_with (MemoryTools.manage_memory Demo.bogus_action) Demo.connected
    "action must be 'update' or 'delete'".
Proof.
  apply (manage_memory_rejects_unknown_action
           Demo.bogus_action Demo.connected (PStr "bogus"));
    [reflexivity | discriminate | discriminate].
Defined.

(** C8, witness: a greeting of five words. *)
Lemma memorize_result_contents_witness :
  exists result,
    outcome (MemoryTools.memorize_conversation
               (Demo.memorize_call Demo.greeting)) Demo.connected
    = Ok result
    /\ result !! "tokens_processed" = Some (PInt 5)
    /\ result !! "success" = Some (PBool true)
    /\ result !! "processing_time"
       = Some (PFloat (fround (fsub (3 # 1) (2 # 1)) 3)).
Proof.
  destruct (memorize_result_contents
              (Demo.memorize_call Demo.greeting) Demo.connected
              Demo.greeting 0%nat (Some (PStr "mem_001")))
    as (result & H1 & H2 & H3 & H4 & _);
    [reflexivity | cbn; lia | reflexivity | reflexivity |].
  exists result. split; [exact H1|]. split; [exact H2|].
  split; [exact H3 | exact H4].
Defined.

(** C9, witness: the five parameters, each as an empty string. *)
Lemma empty_string_is_absent_witness :
  rejected_as_required MemoryTools.memorize_conversation "conversation"
    (Demo.args [("conversation", PStr "")]) Demo.connected
  /\ rejected_as_required MemoryTools.retrieve_memory "query"
       (Demo.args [("query", PStr ""); ("limit", PInt 5)]) Demo.connected
  /\ rejected_as_required MemoryTools.search_memory "search_query"
       (Demo.args [("search_query", PStr "")]) Demo.connected
  /\ rejected_as_required MemoryTools.manage_memory "memory_id"
       (Demo.args [("action", PStr "delete"); ("memory_id", PStr "")])
       Demo.connected
  /\ rejected_with
       (MemoryTools.manage_memory
          (Demo.args [("action", PStr "update"); ("memory_id", PStr "mem_001");
                      ("new_content", PStr "")]))
       Demo.connected "new_content is required for update action".
Proof.
  split; [|split; [|split; [|split]]].
  - destruct (empty_string_is_absent
                (Demo.args [("conversation", PStr "")]) Demo.connected)
      as [H _].
    apply H. reflexivity.
  - destruct (empty_string_is_absent
                (Demo.args [("query", PStr ""); ("limit", PInt 5)])
                Demo.connected) as (_ & H & _).
    apply H. reflexivity.
  - destruct (empty_string_is_absent
                (Demo.args [("search_query", PStr "")]) Demo.connected)
      as (_ & _ & H & _).
    apply H. reflexivity.
  - destruct (empty_string_is_absent
                (Demo.args [("action", PStr "delete"); ("memory_id", PStr "")])
                Demo.connected) as (_ & _ & _ & H & _).
    apply H; reflexivity.
  - destruct (empty_string_is_absent
                (Demo.args [("action", PStr "update");
                            ("memory_id", PStr "mem_001");
                            ("new_content", PStr "")])
                Demo.connected) as (_ & _ & _ & _ & H & _).
    apply H; reflexivity.
Defined.

(** C10, witness: a new wrapper, and one whose [initialize] gave up. *)
Lemma client_not_initialized_guard_witness :
  MemuClientWrapper.get_memory_stats (PStr "default_user") (PBool false)
    (Demo.fresh Demo.up 3)
  = (Raised (Exception RuntimeError "Client not initialized"),
     Demo.fresh Demo.up 3,
     [EvAdapter (call_get_memory_stats (PStr "default_user") (PBool false))])
  /\ _client
       (self (world_after MemuClientWrapper.initialize
                (Demo.fresh Demo.down 1))) = None.
Proof.
  destruct (client_not_initialized_guard (Demo.fresh Demo.up 3))
    as (H & _).
  destruct (client_not_initialized_guard (Demo.fresh Demo.down 1))
    as (_ & _ & H' & _).
  split.
  - destruct H as (_ & _ & _ & _ & _ & H); [reflexivity|]. apply H.
  - apply H'; [reflexivity|]. by eexists.
Defined.
End Instances.

(** ** What a dispatch does to the world and to the log *)

(** Split on the next condition of a handler. *)
Ltac split_cond :=
  match goal with
  | |- context [if ?b then _ else _] =>
      match type of b with bool => destruct b eqn:?; cbn end
  | |- context [match len ?v with _ => _ end] => destruct (len v) eqn:?; cbn
  end.

Section HandlerRuns.
Context {FL : FloatOps}.
(** The handlers hold a [MemuLogger]. *)
#[local] Existing Instance MemuLogger.
Implicit Types (arguments : gmap string PyVal) (w : World).

Lemma same_session_refl w : same_session w w.
Proof. done. Qed.

Lemma memorize_conversation_session
    conversation user_id user_name agent_id agent_name w :
  same_session w
    (MemuClientWrapper.memorize_conversation
       conversation user_id user_name agent_id agent_name w).1.2.
Proof.
  unfold same_session, MemuClientWrapper.memorize_conversation,
    MemuClientWrapper.split_count, MemuClient_memorize_conversation.
  autounfold with run; cbn.
  destruct (_client (self w)); cbn; [|done].
  destruct (_logger (self w)) eqn:El;
    destruct (sdk_memorize (outside w) (sdk_memorizes w)); cbn;
    rewrite ?El; cbn; try done;
    destruct conversation; cbn; rewrite ?El; cbn; done.
Qed.

Ltac placeholder_session w :=
  rewrite ?retrieve_memory_run, ?search_memory_run, ?update_memory_run,
    ?delete_memory_run, ?get_memory_stats_run;
  destruct (_client (self w)); done.

Lemma handler_session name h arguments w :
  (name, h) ∈ dispatch_table -> same_session w (h arguments w).1.2.
Proof.
  unfold dispatch_table. rewrite !elem_of_cons, elem_of_nil.
  intros [[= -> ->]|[[= -> ->]|[[= -> ->]|[[= -> ->]|[[= -> ->]|[]]]]]];
    unfold same_session.
  - unfold MemoryTools.memorize_conversation. autounfold with run; cbn.
    repeat split_cond; try done.
    match goal with
    | |- context [MemuClientWrapper.memorize_conversation ?a ?b ?c ?d ?e w] =>
        pose proof (memorize_conversation_session a b c d e w) as Hs;
        destruct (MemuClientWrapper.memorize_conversation a b c d e w)
          as [[[r|e'] w1] t1]
    end; exact Hs.
  - unfold MemoryTools.retrieve_memory. autounfold with run; cbn.
    repeat split_cond; try done; placeholder_session w.
  - unfold MemoryTools.search_memory. autounfold with run; cbn.
    repeat split_cond; try done; placeholder_session w.
  - unfold MemoryTools.manage_memory. autounfold with run; cbn.
    repeat split_cond; try done; placeholder_session w.
  - unfold MemoryTools.get_memory_stats. autounfold with run; cbn.
    repeat split_cond; try done; placeholder_session w.
Qed.

(** The adapter writes no tool-call record, is entered once per call and
    calls the SDK at most once. *)
Lemma placeholder_counts w c method delay :
  tool_logs (placeholder_events w c method delay) = []
  /\ sdk_calls (placeholder_events w c method delay) = 0%nat.
Proof. unfold placeholder_events, api_log. by destruct (_logger (self w)). Qed.

Lemma memorize_conversation_counts
    conversation user_id user_name agent_id agent_name w :
  let t := (MemuClientWrapper.memorize_conversation
              conversation user_id user_name agent_id agent_name w).2 in
  tool_logs t = [] /\ (sdk_calls t <= 1)%nat /\ length (adapter_calls t) = 1%nat.
Proof.
  unfold MemuClientWrapper.memorize_conversation,
    MemuClientWrapper.split_count, MemuClient_memorize_conversation.
  autounfold with run; cbn.
  destruct (_client (self w)); cbn; [|by auto].
  destruct (_logger (self w)) eqn:El;
    destruct (sdk_memorize (outside w) (sdk_memorizes w)); cbn;
    rewrite ?El; cbn; try (by auto);
    destruct conversation; cbn; rewrite ?El; cbn; by auto.
Qed.

(** A run that ends before the call is logged, and one that goes on. *)
Ltac before_log :=
  cbn; split; [split; [intros [?|?]; done | done] | auto].

Ltac after_log Hl Hs Hc :=
  cbn in *; unfold tool_logs, sdk_calls, adapter_calls in *;
  rewrite ?omap_app, ?List.filter_app, ?length_app, ?Hl in *; cbn;
  repeat split; try lia; try done;
  try (intros Hn; destruct Hn; left; intros Hnil;
       rewrite ?omap_app, ?Hnil in Hc; cbn in Hc;
       try apply app_eq_nil in Hnil as [Hnil _];
       rewrite ?Hnil in Hc; discriminate Hc).

Ltac placeholder_logged w :=
  rewrite ?retrieve_memory_run, ?search_memory_run, ?update_memory_run,
    ?delete_memory_run, ?get_memory_stats_run;
  destruct (_client (self w)); cbn;
  [ match goal with
    | |- context [placeholder_events w ?c ?m ?d] =>
        destruct (placeholder_counts w c m d) as [Hl Hs];
        pose proof (placeholder_calls w c m d) as Hc;
        unfold tool_logs, sdk_calls, adapter_calls in *;
        rewrite ?Hl, ?Hs, ?Hc; cbn; auto
    end
  | split; [split; [done | intros Hn; destruct Hn; by left] | auto] ].

Lemma handler_well_logged name h arguments w :
  (name, h) ∈ dispatch_table -> well_logged name (h arguments w).
Proof.
  unfold dispatch_table. rewrite !elem_of_cons, elem_of_nil.
  intros [[= -> ->]|[[= -> ->]|[[= -> ->]|[[= -> ->]|[[= -> ->]|[]]]]]];
    unfold well_logged, logged_first.
  - unfold MemoryTools.memorize_conversation. autounfold with run; cbn.
    repeat split_cond; try before_log.
    match goal with
    | |- context [MemuClientWrapper.memorize_conversation ?a ?b ?c ?d ?e w] =>
        destruct (memorize_conversation_counts a b c d e w) as (Hl & Hs & Hc);
        destruct (MemuClientWrapper.memorize_conversation a b c d e w)
          as [[[r|e'] w1] t1]
    end.
    + after_log Hl Hs Hc.
    + after_log Hl Hs Hc.
  - unfold MemoryTools.retrieve_memory. autounfold with run; cbn.
    repeat split_cond; try before_log. placeholder_logged w.
  - unfold MemoryTools.search_memory. autounfold with run; cbn.
    repeat split_cond; try before_log. placeholder_logged w.
  - unfold MemoryTools.manage_memory. autounfold with run; cbn.
    repeat split_cond; try before_log; try placeholder_logged w.
    all: cbn; split; [split; [done | intros Hn; destruct Hn; by right] | auto].
  - unfold MemoryTools.get_memory_stats. autounfold with run; cbn.
    repeat split_cond; try before_log. placeholder_logged w.
Qed.

(** A handler constructs no SDK client. *)
Lemma handler_attempts name h arguments w :
  (name, h) ∈ dispatch_table -> attempts (h arguments w).2 = 0%nat.
Proof.
  unfold dispatch_table. rewrite !elem_of_cons, elem_of_nil.
  intros [[= -> ->]|[[= -> ->]|[[= -> ->]|[[= -> ->]|[[= -> ->]|[]]]]]].
  - unfold MemoryTools.memorize_conversation. autounfold with run; cbn.
    repeat split_cond; try done.
    unfold MemuClientWrapper.memorize_conversation,
      MemuClientWrapper.split_count, MemuClient_memorize_conversation.
    autounfold with run; cbn.
    destruct (_client (self w)); cbn; [|done].
    destruct (_logger (self w)) eqn:El;
      destruct (sdk_memorize (outside w) (sdk_memorizes w)); cbn;
      rewrite ?El; cbn; try done;
      destruct (dict_get arguments "conversation"); cbn; rewrite ?El; cbn; done.
  - unfold MemoryTools.retrieve_memory. autounfold with run; cbn.
    repeat split_cond; try done. rewrite retrieve_memory_run.
    destruct (_client (self w)); cbn; [|done].
    unfold placeholder_events, api_log. by destruct (_logger (self w)).
  - unfold MemoryTools.search_memory. autounfold with run; cbn.
    repeat split_cond; try done. rewrite search_memory_run.
    destruct (_client (self w)); cbn; [|done].
    unfold placeholder_events, api_log. by destruct (_logger (self w)).
  - unfold MemoryTools.manage_memory. autounfold with run; cbn.
    repeat split_cond; try done;
      rewrite ?update_memory_run, ?delete_memory_run;
      (destruct (_client (self w)); cbn; [|done]);
      unfold placeholder_events, api_log; by destruct (_logger (self w)).
  - unfold MemoryTools.get_memory_stats. autounfold with run; cbn.
    repeat split_cond; try done. rewrite get_memory_stats_run.
    destruct (_client (self w)); cbn; [|done].
    unfold placeholder_events, api_log. by destruct (_logger (self w)).
Qed.
End HandlerRuns.

Section DispatchRuns.
Context {FL : FloatOps} {logger : Logger}.
Implicit Types (arguments : gmap string PyVal) (w : World).

(** [call_tool] on a name of its chain: the envelope of what the handler
    does, in the world and with the events of the handler. *)
Lemma call_tool_dispatch name h arguments w :
  (name, h) ∈ dispatch_table ->
  Server.call_tool name arguments w
  = (Ok (envelope (h arguments w).1.1), (h arguments w).1.2, (h arguments w).2).
Proof.
  unfold dispatch_table. rewrite !elem_of_cons, elem_of_nil.
  intros [[= -> ->]|[[= -> ->]|[[= -> ->]|[[= -> ->]|[[= -> ->]|[]]]]]];
    unfold Server.call_tool, try_except, bind, ret, envelope;
    cbn [String.eqb Ascii.eqb Bool.eqb];
    match goal with
    | |- context [?h arguments w] =>
        destruct (h arguments w) as [[[r|e] w1] t1]
    end; cbn [fst snd]; rewrite ?app_nil_r; try reflexivity;
    destruct (exc_class e); cbn; by rewrite app_nil_r.
Qed.

(** A name outside the chain: the envelope for an unknown tool, and
    nothing else. *)
Lemma call_tool_unknown name arguments w :
  name ∉ Server.tool_names ->
  Server.call_tool name arguments w
  = (Ok {| Server.content := [Server.TextLit ("Error: Unknown tool: " ++ name)];
           Server.isError := true |},
     w, []).
Proof.
  unfold Server.tool_names. rewrite !not_elem_of_cons.
  intros (H1 & H2 & H3 & H4 & H5 & _). unfold Server.call_tool.
  apply String.eqb_neq in H1, H2, H3, H4, H5.
  by rewrite H1, H2, H3, H4, H5.
Qed.

Lemma dispatch_table_names name :
  name ∈ Server.tool_names -> exists h, (name, h) ∈ dispatch_table.
Proof.
  unfold Server.tool_names, dispatch_table.
  rewrite !elem_of_cons, elem_of_nil.
  intros [->|[->|[->|[->|[->|[]]]]]]; eexists; rewrite !elem_of_cons;
    [left | right; left | do 2 right; left | do 3 right; left
     | do 4 right; left]; reflexivity.
Qed.

(** A handler that holds a [BoundLogger] raises the [AttributeError] of
    [log_tool_call], from its [except] block, whatever it is called with:
    nothing has been done and nothing has been logged. *)
Lemma handler_bound_logger name h arguments w :
  (name, h) ∈ dispatch_table (logger := BoundLogger) ->
  h arguments w
  = (Raised (no_attribute "BoundLogger" "log_tool_call"), w, []).
Proof.
  unfold dispatch_table. rewrite !elem_of_cons, elem_of_nil.
  intros [[= -> ->]|[[= -> ->]|[[= -> ->]|[[= -> ->]|[[= -> ->]|[]]]]]].
  - unfold MemoryTools.memorize_conversation. autounfold with run; cbn.
    repeat split_cond; done.
  - unfold MemoryTools.retrieve_memory. autounfold with run; cbn.
    repeat split_cond; done.
  - unfold MemoryTools.search_memory. autounfold with run; cbn.
    repeat split_cond; done.
  - unfold MemoryTools.manage_memory. autounfold with run; cbn.
    repeat split_cond; done.
  - unfold MemoryTools.get_memory_stats. autounfold with run; cbn.
    repeat split_cond; done.
Qed.

(** Whatever its logger, a handler leaves the session alone, enters at
    most one adapter method, makes at most one SDK call and constructs no
    SDK client. *)
Lemma handler_keeps_session name h arguments w :
  (name, h) ∈ dispatch_table ->
  same_session w (h arguments w).1.2
  /\ (length (adapter_calls (h arguments w).2) <= 1)%nat
  /\ (sdk_calls (h arguments w).2 <= 1)%nat
  /\ attempts (h arguments w).2 = 0%nat.
Proof.
  destruct logger; intros Hh.
  - destruct (handler_well_logged _ _ arguments w Hh) as (_ & Hs & Ha).
    split; [exact (handler_session _ _ _ _ Hh)|].
    split; [exact Ha|]. split; [exact Hs|].
    exact (handler_attempts _ _ _ _ Hh).
  - rewrite (handler_bound_logger _ _ arguments w Hh). cbn.
    split; [done|]. repeat split; lia.
Qed.
End DispatchRuns.

(** ** More on the handlers *)

Section Handlers.
Context {FL : FloatOps}.
(** Handlers and adapter with a [MemuLogger]. *)
#[local] Existing Instance MemuLogger.
Implicit Types (arguments : gmap string PyVal) (w : World).

Ltac by_session w :=
  destruct (_client (self w)) eqn:?; cbn;
  try done; try apply placeholder_calls.

Lemma dict_get_or_Some (d : gmap string PyVal) k v dflt :
  d !! k = Some v -> dict_get_or d k dflt = v.
Proof. unfold dict_get_or. by intros ->. Qed.

(** X1: [get_memory_stats] refuses an [include_details] that is not a
    [bool] (the integer 1 and [None] included) with "include_details must
    be a boolean" and enters no adapter method; with a [bool], or without
    the key (then [False]), it does not fail validation and enters the
    adapter with that flag. *)
Theorem include_details_rule arguments w :
  let user_id := dict_get_or arguments "user_id" (PStr "default_user") in
  (forall v, arguments !! "include_details" = Some v ->
     (forall b, v <> PBool b) ->
     rejected_with (MemoryTools.get_memory_stats arguments) w
       "include_details must be a boolean")
  /\ (forall b, arguments !! "include_details" = Some (PBool b)
              \/ (arguments !! "include_details" = None /\ b = false) ->
     ~ fails_validation (outcome (MemoryTools.get_memory_stats arguments) w)
     /\ adapter_calls (events (MemoryTools.get_memory_stats arguments) w)
        = [call_get_memory_stats user_id (PBool b)]).
Proof.
  intros user_id. subst user_id. split.
  - intros v Hv Hnb. enter. rewrite (dict_get_or_Some _ _ _ _ Hv).
    destruct v; try by run_handler. by destruct (Hnb b).
  - intros b Hb.
    assert (Hf : dict_get_or arguments "include_details" (PBool false) = PBool b).
    { destruct Hb as [H|[H ->]];
        [by apply dict_get_or_Some | by apply dict_get_or_None]. }
    split.
    + intros [msg Hmsg]. revert Hmsg. enter. rewrite Hf. run_handler.
      rewrite get_memory_stats_run. by by_session w.
    + enter. rewrite Hf. run_handler.
      rewrite get_memory_stats_run. by_session w.
Qed.

(** X2: on a live session the statistics always carry the same seven
    keys, and the key "details" on top of them exactly when
    [include_details] is true. *)
Theorem stats_result_keys arguments w (b : bool) (c : MemuClient) :
  arguments !! "include_details" = Some (PBool b) ->
  _client (self w) = Some c ->
  exists result,
    outcome (MemoryTools.get_memory_stats arguments) w = Ok result
    /\ dom result
       = ({["success"; "user_id"; "total_memories"; "total_conversations";
            "memory_size_mb"; "last_updated"; "processing_time"]}
          ∪ (if b then {["details"]} else ∅) : gset string)
    /\ result !! "success" = Some (PBool true)
    /\ result !! "user_id"
       = Some (dict_get_or arguments "user_id" (PStr "default_user")).
Proof.
  intros Hb Hc. eexists. split.
  - enter. rewrite (dict_get_or_Some _ _ _ _ Hb). run_handler.
    rewrite get_memory_stats_run, Hc. reflexivity.
  - unfold MemuClientWrapper.stats_result, dict_of. cbn.
    destruct b; cbn; rewrite ?dom_insert_L, dom_empty_L;
      (split; [set_solver | split; by simplify_map_eq]).
Qed.

(** X3: in [search_memory], once the query and the limit pass, filters that
    are truthy and not a dict are refused with "filters must be a
    dictionary"; any falsy value, of whatever type, is let through, and on a
    live session the result then reports the empty dict as the filters
    applied; a non-empty dict is reported as it is. *)
Theorem filters_rule arguments w :
  truthy (dict_get arguments "search_query") = true ->
  ~ supplied_limit_bad arguments ->
  let filters := dict_get_or arguments "filters" (PDict ∅) in
  let call :=
    call_search_memory (dict_get arguments "search_query")
      (dict_get_or arguments "user_id" (PStr "default_user"))
      filters (dict_get_or arguments "limit" (PInt 10)) in
  (truthy filters = true -> isinstance_dict filters = false ->
     rejected_with (MemoryTools.search_memory arguments) w
       "filters must be a dictionary")
  /\ (truthy filters = false \/ isinstance_dict filters = true ->
     adapter_calls (events (MemoryTools.search_memory arguments) w) = [call]
     /\ (is_Some (_client (self w)) ->
         exists result,
           outcome (MemoryTools.search_memory arguments) w = Ok result
           /\ result !! "filters_applied"
              = Some (if truthy filters then filters else PDict ∅))).
Proof.
  intros Hq Hok%limit_passes filters call. subst filters call. split.
  - intros Ht Hd. enter. rewrite Hq, Hok, Ht, Hd. by run_handler.
  - intros Hpass.
    assert (Hf : truthy (dict_get_or arguments "filters" (PDict ∅))
                 && negb (isinstance_dict
                            (dict_get_or arguments "filters" (PDict ∅))) = false).
    { destruct Hpass as [-> | ->]; [done | by rewrite andb_false_r]. }
    split.
    + enter. rewrite Hq, Hok, Hf. run_handler.
      rewrite search_memory_run. by_session w.
    + intros [c Hc]. eexists. split.
      * enter. rewrite Hq, Hok, Hf. run_handler.
        rewrite search_memory_run, Hc. reflexivity.
      * unfold MemuClientWrapper.search_result, dict_of. cbn.
        by simplify_map_eq.
Qed.
End Handlers.

(** ** Conversations that are not well-formed texts *)

Section Conversations.
Context {FL : FloatOps}.
(** Handlers and adapter with a [MemuLogger]. *)
#[local] Existing Instance MemuLogger.
Implicit Types (arguments : gmap string PyVal) (w : World).

Lemma count_words_bound s : forall b,
  0 <= count_words b s
  /\ 2 * count_words b s <= Z.of_nat (String.length s) + (if b then 1 else 0).
Proof.
  induction s as [|c s IH]; intros b; [destruct b; cbn; lia|].
  cbn [count_words String.length]. rewrite Nat2Z.inj_succ.
  destruct (isspace c).
  - destruct (IH true). destruct b; lia.
  - destruct (IH false). destruct b; lia.
Qed.

Lemma count_words_all_space s :
  count_words true s = 0 <-> all_space s = true.
Proof.
  unfold all_space. induction s as [|c s IH]; [done|].
  cbn [count_words list_ascii_of_string forallb].
  destruct (isspace c); cbn; [exact IH|].
  pose proof (count_words_bound s false). split; [lia | done].
Qed.

(** The adapter on a value that is not a text, the session being live and
    the SDK answering: the SDK call has been made when [split] fails. *)
Lemma memorize_conversation_run_other v user_id user_name agent_id agent_name
    w client result :
  (forall s, v <> PStr s) ->
  _client (self w) = Some client ->
  sdk_memorize (outside w) (sdk_memorizes w) = Ok result ->
  MemuClientWrapper.memorize_conversation v user_id user_name agent_id agent_name w
  = (Raised (Exception RuntimeError
               ("Failed to memorize conversation: '" ++ type_name v
                ++ "' object has no attribute 'split'")),
     tick (tick (called (tick w))),
     ([EvAdapter (call_memorize_conversation
                    v user_id user_name agent_id agent_name);
       EvClock (reading w 0);
       EvSdkMemorize client v user_id user_name agent_id agent_name;
       EvClock (reading w 1)]
      ++ api_log w "memorize_conversation" (elapsed w) true
      ++ [EvClock (reading w 2)]
      ++ api_log w "memorize_conversation"
           (fsub (reading w 2) (reading w 0)) false)%list).
Proof.
  intros Hv Hc Hsdk.
  unfold MemuClientWrapper.memorize_conversation,
    MemuClientWrapper.split_count, MemuClient_memorize_conversation,
    api_log, elapsed, reading.
  autounfold with run; cbn. rewrite Hc; cbn. rewrite Hsdk; cbn.
  destruct (_logger (self w)) eqn:El; cbn;
    destruct v; cbn; rewrite ?El; cbn; try reflexivity; by destruct (Hv s).
Qed.

(** X4: a [conversation] that is truthy but has no length (a non-zero
    number, [True]) makes [len] raise a [TypeError]: the handler raises
    it as it is, which is no validation failure, and no adapter method is
    entered. *)
Theorem unsized_conversation arguments w (v : PyVal) :
  arguments !! "conversation" = Some v ->
  truthy v = true -> len v = None ->
  let msg := "object of type '" ++ type_name v ++ "' has no len()" in
  outcome (MemoryTools.memorize_conversation arguments) w
  = Raised (Exception TypeError msg)
  /\ ~ fails_validation (outcome (MemoryTools.memorize_conversation arguments) w)
  /\ adapter_calls (events (MemoryTools.memorize_conversation arguments) w) = [].
Proof.
  intros Hc Ht Hl msg. subst msg.
  assert (Hrun : MemoryTools.memorize_conversation arguments w
                 = (Raised (Exception TypeError
                              ("object of type '" ++ type_name v
                               ++ "' has no len()")),
                    w, [EvToolLog "memorize_conversation" arguments false])).
  { unfold MemoryTools.memorize_conversation.
    rewrite (dict_get_Some _ _ _ Hc), Ht. autounfold with run; cbn.
    by rewrite Hl. }
  unfold outcome, events. rewrite Hrun. cbn.
  split; [done|]. split; [by intros [m Hm] | done].
Qed.

(** X5: a [conversation] that is a non-empty list or dict of at most
    100,000 entries passes the checks of the handler; on a live session the
    SDK is called with it, and only then the word count fails: the call
    ends in a [RuntimeError] although the backend has accepted the
    conversation. *)
Theorem unsplittable_conversation arguments w (v : PyVal) (n : Z)
    (client : MemuClient) (result : option PyVal) :
  arguments !! "conversation" = Some v ->
  (forall s, v <> PStr s) ->
  len v = Some n -> 0 < n <= 100000 ->
  _client (self w) = Some client ->
  sdk_memorize (outside w) (sdk_memorizes w) = Ok result ->
  outcome (MemoryTools.memorize_conversation arguments) w
  = Raised (Exception RuntimeError
              ("Failed to memorize conversation: '" ++ type_name v
               ++ "' object has no attribute 'split'"))
  /\ sdk_calls (events (MemoryTools.memorize_conversation arguments) w) = 1%nat
  /\ sdk_memorizes (world_after (MemoryTools.memorize_conversation arguments) w)
     = S (sdk_memorizes w).
Proof.
  intros Hc Hv Hl [Hpos Hle] Hcl Hsdk.
  assert (Ht : truthy v = true).
  { destruct v; try discriminate Hl; cbn in *.
    - by destruct (Hv s).
    - destruct l; [cbn in Hl; injection Hl; lia | done].
    - injection Hl as Hl. apply negb_true_iff, bool_decide_eq_false.
      intros ->. rewrite map_size_empty in Hl. cbn in Hl. lia. }
  assert (Hgt : (n >? 100000) = false).
  { destruct (Z.gtb_spec n 100000); [lia | done]. }
  enter. rewrite (dict_get_Some _ _ _ Hc), Ht. run_handler.
  rewrite Hl; cbn. rewrite Hgt; cbn.
  rewrite (memorize_conversation_run_other _ _ _ _ _ _ _ _ Hv Hcl Hsdk).
  unfold api_log. cbn. by destruct (_logger (self w)).
Qed.

(** X6: when the SDK call raises, the adapter makes no second attempt:
    the exception comes back from the handler as a [RuntimeError] "Failed
    to memorize conversation: <message>", after exactly one SDK call. *)
Theorem sdk_failure_is_not_retried arguments w (s : string)
    (client : MemuClient) (e : Exc) :
  arguments !! "conversation" = Some (PStr s) ->
  0 < Z.of_nat (String.length s) <= 100000 ->
  _client (self w) = Some client ->
  sdk_memorize (outside w) (sdk_memorizes w) = Raised e ->
  outcome (MemoryTools.memorize_conversation arguments) w
  = Raised (Exception RuntimeError
              ("Failed to memorize conversation: " ++ exc_str e))
  /\ sdk_calls (events (MemoryTools.memorize_conversation arguments) w) = 1%nat.
Proof.
  intros Hc [Hpos Hle] Hcl Hsdk.
  assert (Ht : truthy (PStr s) = true).
  { destruct s; [cbn in Hpos; lia | done]. }
  assert (Hgt : (Z.of_nat (String.length s) >? 100000) = false).
  { destruct (Z.gtb_spec (Z.of_nat (String.length s)) 100000); [lia | done]. }
  split.
  - enter. rewrite (dict_get_Some _ _ _ Hc), Ht. run_handler.
    rewrite Hgt; cbn. by rewrite memorize_conversation_run, Hcl, Hsdk.
  - enter. rewrite (dict_get_Some _ _ _ Hc), Ht. run_handler.
    rewrite Hgt; cbn. rewrite memorize_conversation_run, Hcl, Hsdk.
    unfold api_log. cbn. by destruct (_logger (self w)).
Qed.

(** X7: the number of tokens reported for an accepted text lies between 0
    and half its length, rounded up, and is 0 exactly when the text is
    whitespace only; such a text is not empty, so it is accepted and sent
    to the backend. *)
Theorem tokens_processed_bounds arguments w (s : string)
    (client : MemuClient) (id : option PyVal) :
  arguments !! "conversation" = Some (PStr s) ->
  0 < Z.of_nat (String.length s) <= 100000 ->
  _client (self w) = Some client ->
  sdk_memorize (outside w) (sdk_memorizes w) = Ok id ->
  exists result tokens,
    outcome (MemoryTools.memorize_conversation arguments) w = Ok result
    /\ result !! "tokens_processed" = Some (PInt tokens)
    /\ 0 <= tokens /\ 2 * tokens <= Z.of_nat (String.length s) + 1
    /\ (tokens = 0 <-> all_space s = true)
    /\ sdk_calls (events (MemoryTools.memorize_conversation arguments) w) = 1%nat.
Proof.
  intros Hc [Hpos Hle] Hcl Hsdk.
  assert (Ht : truthy (PStr s) = true).
  { destruct s; [cbn in Hpos; lia | done]. }
  assert (Hgt : (Z.of_nat (String.length s) >? 100000) = false).
  { destruct (Z.gtb_spec (Z.of_nat (String.length s)) 100000); [lia | done]. }
  destruct (memorize_result_lookup id (word_count s) (elapsed w))
    as (_ & Htokens & _).
  destruct (count_words_bound s true) as [H0 H2].
  exists (MemuClientWrapper.memorize_result id (word_count s) (elapsed w)),
    (word_count s).
  enter. rewrite (dict_get_Some _ _ _ Hc), Ht. run_handler.
  rewrite Hgt. cbn. rewrite memorize_conversation_run, Hcl, Hsdk. cbn.
  rewrite split_word_count.
  repeat split; try done; try apply count_words_all_space.
  unfold api_log. by destruct (_logger (self w)).
Qed.
End Conversations.

(** ** Every dispatch *)

Section Dispatching.
Context {FL : FloatOps} {logger : Logger}.
Implicit Types (arguments : gmap string PyVal) (w : World).

(** X8: whatever the name and the arguments, [call_tool] leaves the
    wrapper as it is (the handle, the retry settings), constructs no SDK
    client, enters at most one adapter method and makes at most one SDK
    call: a call is neither retried nor does it reconnect. *)
Theorem dispatch_keeps_session name arguments w :
  same_session w (world_after (Server.call_tool name arguments) w)
  /\ (length (adapter_calls (events (Server.call_tool name arguments) w)) <= 1)%nat
  /\ (sdk_calls (events (Server.call_tool name arguments) w) <= 1)%nat
  /\ attempts (events (Server.call_tool name arguments) w) = 0%nat.
Proof.
  unfold world_after, events.
  destruct (decide (name ∈ Server.tool_names)) as [Hin|Hout].
  - destruct (dispatch_table_names _ Hin) as [h Hh].
    rewrite (call_tool_dispatch _ _ _ _ Hh). cbn [fst snd].
    exact (handler_keeps_session _ _ _ _ Hh).
  - rewrite (call_tool_unknown _ _ _ Hout). cbn.
    split; [apply same_session_refl|]. repeat split; lia.
Qed.

(** X9: for each of the five names, [call_tool] is the handler followed by
    the envelope: same world, same events; the envelope is flagged as an
    error exactly when the handler raised, its text then starts with
    "Error: " for a [ValueError] and with "Internal error: " for any other
    exception, and is the rendering of the result mapping otherwise. *)
Theorem call_tool_envelope name h arguments w :
  (name, h) ∈ dispatch_table ->
  world_after (Server.call_tool name arguments) w = world_after (h arguments) w
  /\ events (Server.call_tool name arguments) w = events (h arguments) w
  /\ exists r,
       outcome (Server.call_tool name arguments) w = Ok r
       /\ (Server.isError r = true <-> is_raised (outcome (h arguments) w))
       /\ match outcome (h arguments) w with
          | Ok result => Server.content r = [Server.TextStr result]
          | Raised (Exception ValueError msg) =>
              Server.content r = [Server.TextLit ("Error: " ++ msg)]
          | Raised (Exception _ msg) =>
              Server.content r = [Server.TextLit ("Internal error: " ++ msg)]
          end.
Proof.
  intros Hh. unfold world_after, events, outcome.
  rewrite (call_tool_dispatch _ _ _ _ Hh). cbn [fst snd].
  split; [done|]. split; [done|]. eexists. split; [done|].
  destruct (h arguments w).1.1 as [result|[cls msg]]; cbn.
  - split; [|done]. split; [done | by intros [e He]].
  - split; [split; [by eexists | done]|]. by destruct cls.
Qed.

(** X10: the structured log of a call of one of the five tools.  A
    handler that holds a [MemuLogger], as [tools.py] declares, leaves one
    record flagged success when it returns; when it raises, it leaves a
    record flagged failure, preceded by a record flagged success exactly
    when the failure came after the handler had logged the call, that is,
    when an adapter method had been entered or an update lacked its
    [new_content].  The server hands its handlers the [BoundLogger] of
    [setup_logger], which has no [log_tool_call]: through its [call_tool]
    every call of one of the five tools is answered with the internal
    error of the missing method, no record is written, no adapter method
    is entered and the world is as before. *)
Theorem dispatch_log_records name arguments w :
  (forall h, (name, h) ∈ dispatch_table (logger := MemuLogger) ->
     let logs := tool_logs (events (h arguments) w) in
     match outcome (h arguments) w with
     | Ok _ => logs = [(name, true)]
     | Raised _ =>
         (logged_first (h arguments w) ->
          logs = [(name, true); (name, false)])
         /\ (~ logged_first (h arguments w) -> logs = [(name, false)])
     end)
  /\ (name ∈ Server.tool_names ->
      Server.call_tool (logger := MemuMCPServer.setup_logger) name arguments w
      = (Ok {| Server.content :=
                 [Server.TextLit
                    "Internal error: 'BoundLogger' object has no attribute 'log_tool_call'"];
               Server.isError := true |},
         w, [])).
Proof.
  split.
  - intros h Hh. exact (proj1 (handler_well_logged _ _ arguments w Hh)).
  - intros Hin.
    destruct (dispatch_table_names (logger := BoundLogger) _ Hin) as [h Hh].
    unfold MemuMCPServer.setup_logger.
    rewrite (call_tool_dispatch _ _ _ _ Hh).
    by rewrite (handler_bound_logger _ _ arguments w Hh).
Qed.
End Dispatching.

(** ** More on the session *)

Section Lifecycle.
Context {FL : FloatOps}.
(** The wrapper with no logger or with a [MemuLogger]. *)
#[local] Existing Instance MemuLogger.
Implicit Types (w : World).

Lemma sleeps_connect_events w : sleeps (connect_events w) = 0%nat.
Proof. unfold connect_events, api_log. by destruct (_logger (self w)). Qed.

(** The loop over the attempts [a, .., a + len - 1], the last of which is
    attempt [max_retries]: how it ends, whatever the backend does. *)
Lemma initialize_loop_outcome len : forall a w,
  Z.of_nat (a + len) = _max_retries (self w) + 1 -> (0 < len)%nat ->
  let r := MemuClientWrapper.initialize_loop (map Z.of_nat (seq a len)) w in
  (sleeps r.2 + 1 = attempts r.2)%nat
  /\ ((r.1.1 = Ok tt
       /\ exists c, self r.1.2
                    = with_retry_count 0 (with_client (Some c) (self w)))
      \/ (exists e, r.1.1 = Raised (MemuClientWrapper.initialize_failed
                                      (_max_retries (self w)) e)
                    /\ self r.1.2 = self w /\ attempts r.2 = len
                    /\ (_max_retries (self w) <= 1024 \/ len = 1%nat))
      \/ (r.1.1 = Raised int_too_large
          /\ self r.1.2 = self w /\ 1024 < _max_retries (self w)
          /\ (a + attempts r.2 = Nat.max 1025 (S a))%nat)).
Proof.
  induction len as [|len IH]; intros a w Hsum Hpos; [lia|].
  cbn [seq map]. rewrite initialize_loop_step.
  destruct (sdk_new (outside w) (sdk_news w)) as [c|e]; cbn zeta.
  - cbn [fst snd]. rewrite sleeps_connect_events, attempts_connect_events.
    split; [done|]. left. split; [done|]. by exists c.
  - destruct (Z.ltb_spec (Z.of_nat a) (_max_retries (self w))) as [Hlt|Hge].
    + rewrite float_overflows_pow2 by lia.
      destruct (Z.leb_spec 1024 (Z.of_nat a)) as [Hbig|Hsmall].
      * cbn. split; [done|]. right. right.
        split; [done|]. split; [done|]. split; lia.
      * destruct (IH (S a) (constructed w)) as [Hcount Hend];
          [cbn; lia | lia |].
        destruct (MemuClientWrapper.initialize_loop _ (constructed w))
          as [[r w'] t].
        cbn in *. split; [lia|].
        destruct Hend
          as [Hok | [(e' & He' & Hself & Hatt & Hmax) | (Ho & Hself & Hmax & Hatt)]];
          [by left | |].
        -- right. left. exists e'. split; [done|]. split; [done|].
           split; lia.
        -- right. right. split; [done|]. split; [done|]. split; lia.
    + assert (len = 0%nat) as -> by lia.
      cbn. split; [done|]. right. left. exists e.
      split; [done|]. split; [done|]. split; [done | by right].
Qed.

(** X11: with a negative [max_retries] the range of attempts is empty:
    [initialize] returns at once, without constructing a client and
    without raising, and the handle is what it was; with
    [max_retries = 0] there is one attempt at most and no back-off. *)
Theorem initialize_without_retries w :
  (_max_retries (self w) < 0 ->
     MemuClientWrapper.initialize w = (Ok tt, w, []))
  /\ (_max_retries (self w) = 0 ->
     attempts (events MemuClientWrapper.initialize w) = 1%nat
     /\ sleeps (events MemuClientWrapper.initialize w) = 0%nat).
Proof.
  split; intros Hm.
  - rewrite initialize_run. unfold MemuClientWrapper.range.
    by replace (Z.to_nat (_max_retries (self w) + 1)) with 0%nat by lia.
  - unfold events. rewrite initialize_run, Hm.
    change (MemuClientWrapper.range (0 + 1)) with [0].
    rewrite initialize_loop_step.
    destruct (sdk_new (outside w) (sdk_news w)).
    + cbn [snd]. by rewrite attempts_connect_events, sleeps_connect_events.
    + by rewrite Hm.
Qed.


(** X13: neither [initialize] nor [close] changes the configuration, the
    retry limit, the base delay or the logger of the wrapper, and a retry
    counter that is 0, as in a new wrapper, is 0 afterwards: the counter
    is never incremented. *)
Theorem settings_are_kept w :
  (forall op, op = MemuClientWrapper.initialize \/ op = MemuClientWrapper.close ->
     same_settings (self w) (self (world_after op w))
     /\ (_retry_count (self w) = 0 ->
         _retry_count (self (world_after op w)) = 0))
  /\ _retry_count (MemuClientWrapper.__init__
                     (config (self w)) (_max_retries (self w))
                     (_base_delay (self w))) = 0.
Proof.
  split; [|done]. intros op [-> | ->].
  - destruct (Z.lt_ge_cases (_max_retries (self w)) 0) as [Hneg|Hm].
    + unfold world_after. rewrite initialize_run. unfold MemuClientWrapper.range.
      by replace (Z.to_nat (_max_retries (self w) + 1)) with 0%nat by lia.
    + unfold world_after. rewrite initialize_run, (range_succ _ Hm).
      destruct (initialize_loop_outcome
                  (S (Z.to_nat (_max_retries (self w)))) 0 w)
        as [_ [[_ [c ->]] | [(e & _ & -> & _) | (_ & -> & _)]]];
        (lia || done).
  - unfold world_after, MemuClientWrapper.close. autounfold with run; cbn.
    by destruct (_client (self w)).
Qed.
End Lifecycle.

(** ** The server object *)

Section ServerRuns.
Context {FL : FloatOps} {logger : Logger}.
Implicit Types (w : World).

Lemma validate_required_fields_run cfg w :
  ConfigMethods.validate_required_fields cfg w =
  if String.eqb (memu_api_key cfg) "" then
    (Raised (Exception ValueError
               "Required configuration field missing: memu_api_key"), w, [])
  else (Ok true, w, []).
Proof.
  unfold ConfigMethods.validate_required_fields, ConfigMethods.required_fields.
  cbn [ConfigMethods.check_fields]. unfold ConfigMethods.getattr.
  autounfold with run; cbn. by destruct (String.eqb (memu_api_key cfg) "").
Qed.

Lemma close_run w :
  exists w', MemuClientWrapper.close w = (Ok tt, w', [])
             /\ _client (self w') = None.
Proof.
  unfold MemuClientWrapper.close. autounfold with run; cbn.
  destruct (_client (self w)) eqn:E; cbn; eauto.
Qed.

Lemma try_finally_close {A} (body : M A) w :
  exists w',
    MemuMCPServer.try_finally body MemuClientWrapper.close w
    = ((body w).1.1, w', (body w).2)
    /\ _client (self w') = None.
Proof.
  unfold MemuMCPServer.try_finally.
  destruct (body w) as [[r w1] t1].
  destruct (close_run w1) as (w' & Hc & Hn). rewrite Hc. cbn.
  exists w'. by rewrite app_nil_r.
Qed.

(** X14: [run] releases the session whatever happens: the handle is absent
    when it ends.  Without an API key it raises the [ValueError] of the
    configuration check before anything is constructed; when [initialize]
    raises, that exception is the outcome and serving never starts;
    otherwise the outcome is the one of serving, which starts in the world
    [initialize] leaves. *)
Theorem run_releases_session (serve : M unit) w :
  let key := memu_api_key (config (self w)) in
  _client (self (world_after (MemuMCPServer.run serve) w)) = None
  /\ (key = "" ->
      outcome (MemuMCPServer.run serve) w
      = Raised (Exception ValueError
                  "Required configuration field missing: memu_api_key")
      /\ events (MemuMCPServer.run serve) w = [])
  /\ (key <> "" -> is_raised (outcome MemuClientWrapper.initialize w) ->
      outcome (MemuMCPServer.run serve) w
      = outcome MemuClientWrapper.initialize w
      /\ events (MemuMCPServer.run serve) w
         = events MemuClientWrapper.initialize w)
  /\ (key <> "" -> outcome MemuClientWrapper.initialize w = Ok tt ->
      outcome (MemuMCPServer.run serve) w
      = outcome serve (world_after MemuClientWrapper.initialize w)
      /\ events (MemuMCPServer.run serve) w
         = (events MemuClientWrapper.initialize w
            ++ events serve (world_after MemuClientWrapper.initialize w))%list).
Proof.
  intros key. subst key.
  unfold world_after, outcome, events, MemuMCPServer.run.
  match goal with
  | |- context [MemuMCPServer.try_finally ?body _ w] =>
      destruct (try_finally_close body w) as (w' & -> & Hnone)
  end.
  cbn [fst snd]. split; [exact Hnone|]. clear w' Hnone.
  unfold try_except, bind, get_self, raise.
  rewrite validate_required_fields_run.
  generalize MemuClientWrapper.initialize as init. intros init.
  destruct (String.eqb_spec (memu_api_key (config (self w))) "") as [Hk|Hk].
  - cbn. split; [done|]. split; intros; done.
  - destruct (init w) as [[[[]|e] w1] t1]; cbn.
    + destruct (serve w1) as [[[[]|e2] w2] t2]; cbn; rewrite ?app_nil_r;
        (split; [done|]); (split; [by intros _ [e He] | done]).
    + rewrite ?app_nil_r. split; [done|]. split; [done | by intros _ [=]].
Qed.
End ServerRuns.

(** ** The catalogue and the handlers *)

Section Catalogue.
Context {FL : FloatOps}.
(** The handlers hold a [MemuLogger]. *)
#[local] Existing Instance MemuLogger.
Implicit Types (arguments : gmap string PyVal) (w : World).

Ltac each_tool H :=
  unfold MemuMCPServer.list_tools in H;
  rewrite !elem_of_cons, elem_of_nil in H;
  destruct H as [->|[->|[->|[->|[->|[]]]]]].

Ltac each_handler H :=
  unfold dispatch_table in H;
  rewrite !elem_of_cons, elem_of_nil in H;
  destruct H as [H|[H|[H|[H|[H|[]]]]]];
  cbn in H; try discriminate H; injection H as ->.

(** X15: the catalogue and the dispatcher know the same five names, in
    the same order and without repetition; every parameter a schema
    requires is one of its properties; and a call of a tool without a
    parameter its schema requires fails validation in the handler, before
    any adapter method. *)
Theorem catalogue_agrees (u a : string) :
  map MemuMCPServer.name (MemuMCPServer.list_tools u a) = Server.tool_names
  /\ map MemuMCPServer.name (MemuMCPServer.list_tools u a)
     = map fst dispatch_table
  /\ NoDup (map MemuMCPServer.name (MemuMCPServer.list_tools u a))
  /\ (forall t p, t ∈ MemuMCPServer.list_tools u a -> p ∈ required_of t ->
        is_Some (property_of t p)
        /\ forall h arguments w,
             (MemuMCPServer.name t, h) ∈ dispatch_table ->
             arguments !! p = None ->
             fails_validation (outcome (h arguments) w)
             /\ adapter_calls (events (h arguments) w) = []).
Proof.
  split; [done|]. split; [done|]. split.
  - apply (bool_decide_unpack _). by vm_compute.
  - intros t p Ht Hp. each_tool Ht; vm_compute in Hp;
      repeat (apply elem_of_cons in Hp as [->|Hp]);
      try (by apply elem_of_nil in Hp);
      (split; [vm_compute; by eexists|]); intros h arguments w Hh Hnone;
      each_handler Hh; enter; rewrite ?(dict_get_None _ _ Hnone);
      try (run_handler; split; [by eexists | done]).
    destruct (in_strs (dict_get arguments "action") _); run_handler;
      (split; [by eexists | done]).
Qed.

(** X16: the bounds and the enumeration the catalogue advertises are the
    ones the handlers enforce: an integer [limit] passes the check of the
    handlers exactly when it lies between the advertised minimum and
    maximum; a call without a [limit] is never refused for its limit and,
    unless it is refused for another parameter, enters the adapter with
    the advertised default as its limit; and an action is refused with the
    action message exactly when it is not an advertised value. *)
Theorem advertised_bounds_enforced (u a : string) t :
  t ∈ MemuMCPServer.list_tools u a ->
  (forall schema, property_of t "limit" = Some schema ->
     exists lo hi dflt,
       field schema "minimum" = Some (PInt lo)
       /\ field schema "maximum" = Some (PInt hi)
       /\ field schema "default" = Some (PInt dflt)
       /\ (forall z, MemoryTools.bad_limit (PInt z) = false <-> lo <= z <= hi)
       /\ forall h arguments w,
            (MemuMCPServer.name t, h) ∈ dispatch_table ->
            arguments !! "limit" = None ->
            outcome (h arguments) w
            <> Raised (Exception ValueError MemoryTools.limit_message)
            /\ (~ fails_validation (outcome (h arguments) w) ->
                exists c,
                  adapter_calls (events (h arguments) w) = [c]
                  /\ limit_of c = Some (PInt dflt)))
  /\ (forall schema, property_of t "action" = Some schema ->
      exists values,
        field schema "enum" = Some (MemuMCPServer.strs values)
        /\ forall arguments w s,
             arguments !! "action" = Some (PStr s) ->
             (s ∉ values <->
              rejected_with (MemoryTools.manage_memory arguments) w
                MemoryTools.action_message)).
Proof.
  intros Ht. split.
  - intros schema Hs. exists 1, 50, 10.
    each_tool Ht; vm_compute in Hs; try discriminate Hs;
      injection Hs as <-;
      (split; [by vm_compute|]); (split; [by vm_compute|]);
      (split; [by vm_compute|]); (split; [exact bad_limit_int|]);
      intros h arguments w Hh Hnone; each_handler Hh; enter;
      rewrite (dict_get_or_None _ _ _ Hnone).
    + destruct (truthy (dict_get arguments "query")); run_handler.
      * rewrite retrieve_memory_run.
        split; [by destruct (_client (self w))|]. intros _.
        exists (call_retrieve_memory (dict_get arguments "query")
                  (dict_get_or arguments "user_id" (PStr "default_user"))
                  (PInt 10)).
        split; [|reflexivity].
        destruct (_client (self w)); cbn; [|done].
        apply placeholder_calls.
      * split; [done|]. intros []. by eexists.
    + destruct (truthy (dict_get arguments "search_query")); run_handler.
      * destruct (truthy (dict_get_or arguments "filters" (PDict ∅))
                  && negb (isinstance_dict
                             (dict_get_or arguments "filters" (PDict ∅))));
          run_handler.
        -- split; [done|]. intros []. by eexists.
        -- rewrite search_memory_run.
           split; [by destruct (_client (self w))|]. intros _.
           exists (call_search_memory (dict_get arguments "search_query")
                     (dict_get_or arguments "user_id" (PStr "default_user"))
                     (dict_get_or arguments "filters" (PDict ∅))
                     (PInt 10)).
           split; [|reflexivity].
           destruct (_client (self w)); cbn; [|done].
           apply placeholder_calls.
      * split; [done|]. intros []. by eexists.
  - intros schema Hs. exists ["update"; "delete"].
    each_tool Ht; vm_compute in Hs; try discriminate Hs.
    injection Hs as <-. split; [by vm_compute|].
    intros arguments w s Ha.
    rewrite !not_elem_of_cons.
    split.
    + intros (Hu & Hd & _). enter. rewrite (dict_get_Some _ _ _ Ha).
      destruct (in_strs (PStr s) _) eqn:E.
      * apply in_strs_action in E as [[= ->]|[= ->]]; done.
      * by run_handler.
    + intros [Hout _]. revert Hout. enter. rewrite (dict_get_Some _ _ _ Ha).
      destruct (in_strs (PStr s) _) eqn:E.
      * intros Hout. exfalso. revert Hout. run_handler.
        repeat split_cond; try done;
          rewrite ?update_memory_run, ?delete_memory_run;
          destruct (_client (self w)); done.
      * intros _. repeat split; try apply not_elem_of_nil;
          intros ->; discriminate E.
Qed.
End Catalogue.

(** ** Uptime *)

Section UptimeFacts.
Context {FL : FloatOps}.
Variable int_ : float -> Z.

(** X17: the four counts of [format_uptime] add up to the uptime, with
    hours below 24 and minutes and seconds below 60, for every integer,
    negative ones included; the text names seconds only below a minute and
    minutes and seconds below an hour; and for a negative uptime the count
    of days, which is negative, is left out, so that the text is the one
    of the uptime taken modulo a day. *)
Theorem format_uptime_parts (x : float) :
  let u := int_ x in
  (match MemuMCPAPI.uptime_parts u with
   | (d, h, m, s) =>
       d * 86400 + h * 3600 + m * 60 + s = u
       /\ 0 <= h < 24 /\ 0 <= m < 60 /\ 0 <= s < 60
   end)
  /\ (0 <= u < 60 -> MemuMCPAPI.format_uptime int_ x = pretty u ++ "s")
  /\ (60 <= u < 3600 ->
      MemuMCPAPI.format_uptime int_ x
      = pretty (u / 60) ++ "m " ++ pretty (u mod 60) ++ "s")
  /\ (u < 0 -> forall y, int_ y = u mod 86400 ->
      MemuMCPAPI.format_uptime int_ x = MemuMCPAPI.format_uptime int_ y).
Proof.
  intros u. unfold MemuMCPAPI.format_uptime, MemuMCPAPI.uptime_parts.
  fold u. split; [|split; [|split]].
  - Z.div_mod_to_equations. lia.
  - intros Hu.
    rewrite (Z.div_small u 86400), (Z.mod_small u 86400),
      (Z.div_small u 3600), (Z.mod_small u 3600), (Z.div_small u 60),
      (Z.mod_small u 60) by lia.
    reflexivity.
  - intros Hu.
    rewrite (Z.div_small u 86400), (Z.mod_small u 86400),
      (Z.div_small u 3600), (Z.mod_small u 3600) by lia.
    assert (Hm : (u / 60 >? 0) = true).
    { apply Z.gtb_lt. Z.div_mod_to_equations. lia. }
    cbn. by rewrite Hm.
  - intros Hu y ->.
    assert (H1 : (u mod 86400) mod 86400 = u mod 86400)
      by (Z.div_mod_to_equations; lia).
    assert (H2 : (u mod 86400) mod 3600 = u mod 3600)
      by (Z.div_mod_to_equations; lia).
    assert (H3 : (u mod 86400) mod 60 = u mod 60)
      by (Z.div_mod_to_equations; lia).
    assert (H4 : (u / 86400 >? 0) = false).
    { destruct (Z.gtb_spec (u / 86400) 0) as [Hd|]; [|done].
      exfalso. revert Hd. Z.div_mod_to_equations. lia. }
    assert (H5 : (u mod 86400 / 86400 >? 0) = false).
    { destruct (Z.gtb_spec (u mod 86400 / 86400) 0) as [Hd|]; [|done].
      exfalso. revert Hd. Z.div_mod_to_equations. lia. }
    by rewrite H1, H2, H3, H4, H5.
Qed.
End UptimeFacts.

(** ** The further theorems at work on concrete calls *)

Section MoreInstances.
#[local] Existing Instance exact_floats.
#[local] Existing Instance MemuLogger.

(** X1, witness: the integer 1 is not a boolean; [True] is. *)
Lemma include_details_rule_witness :
  rejected_with (MemoryTools.get_memory_stats (Cases.stats_call (PInt 1)))
    Demo.connected "include_details must be a boolean"
  /\ adapter_calls
       (events (MemoryTools.get_memory_stats (Cases.stats_call (PBool true)))
          Demo.connected)
     = [call_get_memory_stats (PStr "default_user") (PBool true)].
Proof.
  split.
  - destruct (include_details_rule (Cases.stats_call (PInt 1)) Demo.connected)
      as [H _].
    apply (H (PInt 1)); [reflexivity | discriminate].
  - destruct (include_details_rule (Cases.stats_call (PBool true))
                Demo.connected) as [_ H].
    apply (H true). left. reflexivity.
Defined.

(** X2, witness: statistics with and without details. *)
Lemma stats_result_keys_witness :
  (exists result,
     outcome (MemoryTools.get_memory_stats (Cases.stats_call (PBool true)))
       Demo.connected = Ok result
     /\ "details" ∈ dom result)
  /\ (exists result,
        outcome (MemoryTools.get_memory_stats (Cases.stats_call (PBool false)))
          Demo.connected = Ok result
        /\ "details" ∉ dom result).
Proof.
  split.
  - destruct (stats_result_keys (Cases.stats_call (PBool true))
                Demo.connected true 0%nat)
      as (result & Hr & Hd & _); [reflexivity | reflexivity |].
    exists result. split; [exact Hr|]. rewrite Hd.
    apply (bool_decide_unpack _). by vm_compute.
  - destruct (stats_result_keys (Cases.stats_call (PBool false))
                Demo.connected false 0%nat)
      as (result & Hr & Hd & _); [reflexivity | reflexivity |].
    exists result. split; [exact Hr|]. rewrite Hd.
    apply (bool_decide_unpack _). by vm_compute.
Defined.

Lemma no_limit_supplied (d : gmap string PyVal) :
  d !! "limit" = None -> ~ supplied_limit_bad d.
Proof. intros Hd (v & Hv & _). congruence. Qed.

(** X3, witness: a text as filters is refused, an empty text is let
    through. *)
Lemma filters_rule_witness :
  rejected_with
    (MemoryTools.search_memory (Cases.search_with (PStr "agent_001")))
    Demo.connected "filters must be a dictionary"
  /\ adapter_calls
       (events (MemoryTools.search_memory (Cases.search_with (PStr "")))
          Demo.connected)
     = [call_search_memory (PStr "test") (PStr "default_user") (PStr "")
          (PInt 10)].
Proof.
  split.
  - destruct (filters_rule (Cases.search_with (PStr "agent_001"))
                Demo.connected) as [H _];
      [reflexivity | by apply no_limit_supplied |].
    apply H; reflexivity.
  - destruct (filters_rule (Cases.search_with (PStr "")) Demo.connected)
      as [_ H]; [reflexivity | by apply no_limit_supplied |].
    destruct H as [H _]; [by left | exact H].
Defined.

(** X4, witness: the number 5 as conversation. *)
Lemma unsized_conversation_witness :
  outcome
    (MemoryTools.memorize_conversation (Cases.conversation_call (PInt 5)))
    Demo.connected
  = Raised (Exception TypeError "object of type 'int' has no len()")
  /\ adapter_calls
       (events
          (MemoryTools.memorize_conversation (Cases.conversation_call (PInt 5)))
          Demo.connected) = [].
Proof.
  destruct (unsized_conversation (Cases.conversation_call (PInt 5))
              Demo.connected (PInt 5)) as (H1 & _ & H2);
    [reflexivity | reflexivity | reflexivity |].
  split; [exact H1 | exact H2].
Defined.

(** X5, witness: a list of two turns as conversation. *)
Lemma unsplittable_conversation_witness :
  outcome
    (MemoryTools.memorize_conversation
       (Cases.conversation_call (PList [PStr "Hello!"; PStr "Hi there!"])))
    Demo.connected
  = Raised (Exception RuntimeError
              "Failed to memorize conversation: 'list' object has no attribute 'split'")
  /\ sdk_calls
       (events
          (MemoryTools.memorize_conversation
             (Cases.conversation_call (PList [PStr "Hello!"; PStr "Hi there!"])))
          Demo.connected) = 1%nat.
Proof.
  destruct (unsplittable_conversation
              (Cases.conversation_call (PList [PStr "Hello!"; PStr "Hi there!"]))
              Demo.connected (PList [PStr "Hello!"; PStr "Hi there!"]) 2
              0%nat (Some (PStr "mem_001")))
    as (H1 & H2 & _);
    [reflexivity | discriminate | reflexivity | lia | reflexivity
     | reflexivity |].
  split; [exact H1 | exact H2].
Defined.

(** X6, witness: the backend has gone away. *)
Lemma sdk_failure_is_not_retried_witness :
  outcome (MemoryTools.memorize_conversation (Demo.memorize_call Demo.greeting))
    Cases.backend_gone
  = Raised (Exception RuntimeError
              "Failed to memorize conversation: unavailable")
  /\ sdk_calls
       (events (MemoryTools.memorize_conversation
                  (Demo.memorize_call Demo.greeting)) Cases.backend_gone)
     = 1%nat.
Proof.
  destruct (sdk_failure_is_not_retried (Demo.memorize_call Demo.greeting)
              Cases.backend_gone Demo.greeting 0%nat
              (Exception SdkError "unavailable"))
    as (H1 & H2);
    [reflexivity | cbn; lia | reflexivity | reflexivity |].
  split; [exact H1 | exact H2].
Defined.

(** X7, witness: three blanks are a conversation of no token. *)
Lemma tokens_processed_bounds_witness :
  exists result,
    outcome (MemoryTools.memorize_conversation (Demo.memorize_call "   "))
      Demo.connected = Ok result
    /\ result !! "tokens_processed" = Some (PInt 0).
Proof.
  destruct (tokens_processed_bounds (Demo.memorize_call "   ") Demo.connected
              "   " 0%nat (Some (PStr "mem_001")))
    as (result & tokens & Hr & Ht & _ & _ & Hz & _);
    [reflexivity | cbn; lia | reflexivity | reflexivity |].
  exists result. split; [exact Hr|].
  rewrite Ht. do 2 f_equal. apply Hz. reflexivity.
Defined.

(** X9, witness: a refused call and its envelope. *)
Lemma call_tool_envelope_witness :
  events (Server.call_tool "manage_memory" Demo.bogus_action) Demo.connected
  = events (MemoryTools.manage_memory Demo.bogus_action) Demo.connected
  /\ world_after (Server.call_tool "manage_memory" Demo.bogus_action)
       Demo.connected
     = world_after (MemoryTools.manage_memory Demo.bogus_action) Demo.connected.
Proof.
  destruct (call_tool_envelope "manage_memory" MemoryTools.manage_memory
              Demo.bogus_action Demo.connected) as (H1 & H2 & _).
  - unfold dispatch_table. rewrite !elem_of_cons. do 3 right. by left.
  - split; [exact H2 | exact H1].
Defined.

(** X10, witness: with a [MemuLogger], an update without [new_content]
    leaves two records and a call without an action one; on the server
    the same update is answered with the internal error and leaves none. *)
Lemma dispatch_log_records_witness :
  tool_logs
    (events (MemoryTools.manage_memory
               (<["action" := PStr "update"]> Demo.manage_call))
       Demo.connected)
  = [("manage_memory", true); ("manage_memory", false)]
  /\ tool_logs
       (events (MemoryTools.manage_memory Demo.manage_call) Demo.connected)
     = [("manage_memory", false)]
  /\ tool_logs
       (events
          (Server.call_tool (logger := MemuMCPServer.setup_logger)
             "manage_memory" (<["action" := PStr "update"]> Demo.manage_call))
          Demo.connected) = [].
Proof.
  assert (Hh : ("manage_memory", MemoryTools.manage_memory)
               ∈ dispatch_table (logger := MemuLogger)).
  { unfold dispatch_table. rewrite !elem_of_cons. do 3 right. by left. }
  split; [|split].
  - destruct (dispatch_log_records "manage_memory"
                (<["action" := PStr "update"]> Demo.manage_call)
                Demo.connected) as [H _].
    apply (H _ Hh). right. reflexivity.
  - destruct (dispatch_log_records "manage_memory" Demo.manage_call
                Demo.connected) as [H _].
    apply (H _ Hh). intros [Hcalls | Hout]; [by apply Hcalls | discriminate Hout].
  - destruct (dispatch_log_records "manage_memory"
                (<["action" := PStr "update"]> Demo.manage_call)
                Demo.connected) as [_ H].
    unfold events. rewrite H; [reflexivity|].
    unfold Server.tool_names. rewrite !elem_of_cons. do 3 right. by left.
Defined.

(** X11, witness: a retry limit of -1, and one of 0 with a backend that
    is down. *)
Lemma initialize_without_retries_witness :
  MemuClientWrapper.initialize (Demo.fresh Demo.up (-1))
  = (Ok tt, Demo.fresh Demo.up (-1), [])
  /\ attempts (events MemuClientWrapper.initialize (Demo.fresh Demo.down 0))
     = 1%nat
  /\ sleeps (events MemuClientWrapper.initialize (Demo.fresh Demo.down 0))
     = 0%nat.
Proof.
  split.
  - destruct (initialize_without_retries (Demo.fresh Demo.up (-1))) as [H _].
    apply H. cbn. lia.
  - destruct (initialize_without_retries (Demo.fresh Demo.down 0)) as [_ H].
    apply H. reflexivity.
Defined.


(** X13, witness: a new wrapper before and after connecting. *)
Lemma settings_are_kept_witness :
  _retry_count
    (self (world_after MemuClientWrapper.initialize (Demo.fresh Demo.up 3))) = 0
  /\ _max_retries
       (self (world_after MemuClientWrapper.initialize (Demo.fresh Demo.up 3)))
     = 3.
Proof.
  destruct (settings_are_kept (Demo.fresh Demo.up 3)) as [H _].
  destruct (H MemuClientWrapper.initialize) as [(_ & Hm & _) Hr];
    [by left|].
  split; [apply Hr; reflexivity | exact Hm].
Defined.

(** X14, witness, on the server as it is wired: without an API key
    nothing is constructed; with a key and one retry, against a backend
    that answers, the probe of both attempts ends in the missing method
    of the [BoundLogger] and [run] ends in the [ConnectionError] of
    [initialize]; with a retry limit of -1 nothing is attempted and a call
    is served. *)
Lemma run_releases_session_witness :
  let run := MemuMCPServer.run (logger := MemuMCPServer.setup_logger) in
  (outcome (run Cases.serve_once) Cases.without_key
   = Raised (Exception ValueError
               "Required configuration field missing: memu_api_key")
   /\ events (run Cases.serve_once) Cases.without_key = [])
  /\ (outcome (run Cases.serve_once) (Cases.created Demo.up 1)
      = Raised (Exception ConnectionError
                  "Failed to initialize memU client after 2 attempts: 'BoundLogger' object has no attribute 'log_memu_api_call'")
      /\ attempts (events (run Cases.serve_once) (Cases.created Demo.up 1))
         = 2%nat
      /\ _client
           (self (world_after (run Cases.serve_once) (Cases.created Demo.up 1)))
         = None)
  /\ outcome (run Cases.serve_once) (Cases.created Demo.up (-1)) = Ok tt.
Proof.
  intros run. subst run. split; [|split].
  - destruct (run_releases_session (logger := MemuMCPServer.setup_logger)
                Cases.serve_once Cases.without_key) as (_ & H & _).
    apply H. reflexivity.
  - destruct (run_releases_session (logger := MemuMCPServer.setup_logger)
                Cases.serve_once (Cases.created Demo.up 1))
      as (Hnone & _ & H & _).
    destruct H as [Hout Hev]; [discriminate | by eexists |].
    rewrite Hout, Hev. split; [reflexivity|]. split; [reflexivity | exact Hnone].
  - destruct (run_releases_session (logger := MemuMCPServer.setup_logger)
                Cases.serve_once (Cases.created Demo.up (-1)))
      as (_ & _ & _ & H).
    destruct H as [H _]; [discriminate | reflexivity |].
    rewrite H. reflexivity.
Defined.

Lemma strs_inj (l l' : list string) :
  MemuMCPServer.strs l = MemuMCPServer.strs l' -> l = l'.
Proof.
  unfold MemuMCPServer.strs. intros [= H]. revert l' H.
  induction l as [|x l IH]; intros [|y l'] H; try discriminate H; [done|].
  injection H as -> H. f_equal. by apply IH.
Qed.

Lemma retrieve_tool_listed : Cases.retrieve_tool ∈ Cases.catalogue.
Proof. by apply (list_elem_of_lookup_2 _ 1%nat). Qed.

Lemma manage_tool_listed : Cases.manage_tool ∈ Cases.catalogue.
Proof. by apply (list_elem_of_lookup_2 _ 3%nat). Qed.

(** X15, witness: [manage_memory] without its [memory_id]. *)
Lemma catalogue_agrees_witness :
  fails_validation
    (outcome
       (MemoryTools.manage_memory (Demo.args [("action", PStr "delete")]))
       Demo.connected)
  /\ adapter_calls
       (events
          (MemoryTools.manage_memory (Demo.args [("action", PStr "delete")]))
          Demo.connected) = [].
Proof.
  destruct (catalogue_agrees "default_user" "default_agent")
    as (_ & _ & _ & H).
  destruct (H Cases.manage_tool "memory_id" manage_tool_listed) as [_ H'].
  - apply (bool_decide_unpack _). by vm_compute.
  - apply (H' MemoryTools.manage_memory); [|reflexivity].
    unfold dispatch_table. rewrite !elem_of_cons. do 3 right. by left.
Defined.

(** X16, witness: the bounds of [retrieve_memory], a call of it without
    a limit, and the actions of [manage_memory]. *)
Lemma advertised_bounds_enforced_witness :
  (exists lo hi dflt,
     (forall z, MemoryTools.bad_limit (PInt z) = false <-> lo <= z <= hi)
     /\ lo = 1 /\ hi = 50 /\ dflt = 10)
  /\ (exists c,
       adapter_calls
         (events (MemoryTools.retrieve_memory (Demo.args [("query", PStr "test")]))
            (Demo.fresh Demo.up 3)) = [c]
       /\ limit_of c = Some (PInt 10))
  /\ rejected_with (MemoryTools.manage_memory Demo.bogus_action)
       Demo.connected MemoryTools.action_message.
Proof.
  split; [|split].
  - destruct (advertised_bounds_enforced "default_user" "default_agent"
                Cases.retrieve_tool retrieve_tool_listed) as [H _].
    destruct (H _ eq_refl) as (lo & hi & dflt & Hlo & Hhi & Hd & Hb & _).
    exists lo, hi, dflt. split; [exact Hb|].
    vm_compute in Hlo, Hhi, Hd.
    injection Hlo as <-. injection Hhi as <-. injection Hd as <-. done.
  - destruct (advertised_bounds_enforced "default_user" "default_agent"
                Cases.retrieve_tool retrieve_tool_listed) as [H _].
    destruct (H _ eq_refl) as (lo & hi & dflt & _ & _ & Hd & _ & Hdflt).
    vm_compute in Hd. injection Hd as <-.
    destruct (Hdflt MemoryTools.retrieve_memory
                (Demo.args [("query", PStr "test")]) (Demo.fresh Demo.up 3))
      as [_ Hcall].
    + unfold dispatch_table. rewrite !elem_of_cons. right. by left.
    + reflexivity.
    + apply Hcall. intros [msg Hmsg]. vm_compute in Hmsg. discriminate Hmsg.
  - destruct (advertised_bounds_enforced "default_user" "default_agent"
                Cases.manage_tool manage_tool_listed) as [_ H].
    destruct (H _ eq_refl) as (values & Hv & Hrule).
    assert (Hvalues : values = ["update"; "delete"]).
    { apply strs_inj. apply (inj Some). rewrite <- Hv. reflexivity. }
    subst values.
    apply (Hrule Demo.bogus_action Demo.connected "bogus"); [reflexivity|].
    apply (bool_decide_unpack _). by vm_compute.
Defined.

(** X17, witness: 59 seconds, two minutes, and a clock set back by one
    second. *)
Lemma format_uptime_parts_witness :
  MemuMCPAPI.format_uptime (FL := exact_floats) Cases.int_of_Q (59 # 1) = "59s"
  /\ MemuMCPAPI.format_uptime (FL := exact_floats) Cases.int_of_Q (125 # 1) = "2m 5s"
  /\ MemuMCPAPI.format_uptime (FL := exact_floats) Cases.int_of_Q (-1 # 1)
     = MemuMCPAPI.format_uptime (FL := exact_floats) Cases.int_of_Q (86399 # 1).
Proof.
  split; [|split].
  - destruct (format_uptime_parts (FL := exact_floats) Cases.int_of_Q (59 # 1))
      as (_ & H & _).
    rewrite H by (split; by vm_compute). reflexivity.
  - destruct (format_uptime_parts (FL := exact_floats) Cases.int_of_Q (125 # 1))
      as (_ & _ & H & _).
    rewrite H by (split; by vm_compute). reflexivity.
  - destruct (format_uptime_parts (FL := exact_floats) Cases.int_of_Q (-1 # 1))
      as (_ & _ & _ & H).
    apply H; [by vm_compute | reflexivity].
Defined.
End MoreInstances.
